(** * The MCP protocol engine of mcp-supabase-native (src/mcp-protocol.js)

    A shallow embedding of class [MCPServer]: the tool registry (a JavaScript
    [Map]), the dispatcher [handleMessage] with its four method handlers, and
    the response framing, followed by the properties of the engine.

    JavaScript is modelled as far as the engine uses it:
    - values are the values [JSON.parse] can produce, plus [undefined];
    - a synchronous computation either returns or throws, and may update the
      engine ([this]): a small state-and-exception monad;
    - a promise is taken at its settlement (fulfilled or rejected); an
      [async] function turns the completion of its body into a promise, and
      [return p] of a promise [p] hands [p]'s settlement to the caller without
      passing through the [try]/[catch] around the [return];
    - a tool handler is an opaque collaborator: a function from the arguments
      value to the settlement of the promise it returns.  Handlers are
      assumed to settle and not to touch the engine;
    - no listener is subscribed to the engine's events in this repository, so
      [emit] only records the signal. *)

From Stdlib Require Import String Ascii List ZArith Bool Lia.
From Stdlib Require Import DecimalString.
Import ListNotations.
Set Warnings "-register-all".
Open Scope list_scope.
Open Scope string_scope.

(** ** JavaScript values and the built-ins the engine relies on *)
Module JS.

(** A value as decoded from JSON, or [undefined].  [VNum] carries the
    integer-valued numbers (within the safe-integer range, where the decimal
    rendering below is the one of JavaScript); [VObj] lists the own
    properties in enumeration order, each key once. *)
Inductive value : Type :=
| VUndefined
| VNull
| VBool (b : bool)
| VNum (n : Z)
| VStr (s : string)
| VArr (items : list value)
| VObj (props : list (string * value)).

(** What can be thrown: an [Error] instance with its [name] and [message],
    or any other value ([throw "text"], [Promise.reject()] ...). *)
Inductive exn : Type :=
| ErrorObject (name message : string)
| Thrown (v : value).

Definition TypeError (message : string) : exn := ErrorObject "TypeError" message.

(** Completion of a synchronous computation. *)
Inductive outcome (A : Type) : Type :=
| Return (a : A)
| Throw (e : exn).
Arguments Return {A} a.
Arguments Throw {A} e.

(** A promise, observed once settled. *)
Inductive promise : Type :=
| Fulfilled (v : value)
| Rejected (e : exn).

(** What a function body hands to [return]: a plain value or a promise. *)
Inductive returned : Type :=
| Plain (v : value)
| Thenable (p : promise).

Definition nullish (v : value) : option string :=
  match v with
  | VUndefined => Some "undefined"
  | VNull => Some "null"
  | _ => None
  end.

Fixpoint own_property (props : list (string * value)) (k : string) : option value :=
  match props with
  | [] => None
  | (k', v) :: rest => if String.eqb k k' then Some v else own_property rest k
  end.

(** [Get(v, k)] on a value that is neither [null] nor [undefined].  The engine
    reads only the keys method, params, id, capabilities, name, arguments and
    message; none of them is inherited by a JSON value from a prototype, so a
    key is found on an object's own properties or not at all. *)
Definition Get (v : value) (k : string) : value :=
  match v with
  | VObj props =>
      match own_property props k with
      | Some x => x
      | None => VUndefined
      end
  | _ => VUndefined
  end.

(** Member access [v.k]. *)
Definition member (v : value) (k : string) : outcome value :=
  match nullish v with
  | Some what =>
      Throw (TypeError ("Cannot read properties of " ++ what
                          ++ " (reading '" ++ k ++ "')"))
  | None => Return (Get v k)
  end.

(** Object destructuring [const { first, ... } = v], where [v] is the
    variable called [var]: the pattern first requires [v] to be coercible
    to an object. *)
Definition destructure (v : value) (var first : string) : outcome unit :=
  match nullish v with
  | Some what =>
      Throw (TypeError ("Cannot destructure property '" ++ first ++ "' of '"
                          ++ var ++ "' as it is " ++ what ++ "."))
  | None => Return tt
  end.

Definition Number_toString (n : Z) : string :=
  NilZero.string_of_int (Z.to_int n).

(** [ToString], as applied by a template literal.  An array is joined with
    commas ([null] and [undefined] items render empty); an object is
    "[object Object]" unless it carries an own [toString] property, which in
    a JSON value is never callable. *)
Fixpoint ToString (v : value) : outcome string :=
  match v with
  | VUndefined => Return "undefined"
  | VNull => Return "null"
  | VBool true => Return "true"
  | VBool false => Return "false"
  | VNum n => Return (Number_toString n)
  | VStr s => Return s
  | VArr items =>
      (fix join (l : list value) : outcome string :=
         match l with
         | [] => Return EmptyString
         | x :: rest =>
             match (match x with
                    | VUndefined | VNull => Return EmptyString
                    | _ => ToString x
                    end) with
             | Throw e => Throw e
             | Return sx =>
                 match rest with
                 | [] => Return sx
                 | _ :: _ =>
                     match join rest with
                     | Throw e => Throw e
                     | Return sr => Return (sx ++ "," ++ sr)
                     end
                 end
             end
         end) items
  | VObj props =>
      match own_property props "toString" with
      | Some _ => Throw (TypeError "Cannot convert object to primitive value")
      | None => Return "[object Object]"
      end
  end.

(** *** JSON.stringify(v, null, 2) *)

Definition dquote : ascii := "034"%char.
Definition backslash : ascii := "092"%char.
Definition newline : string := String "010"%char EmptyString.

Definition hex_digit (n : nat) : ascii :=
  match n with
  | 0 => "0" | 1 => "1" | 2 => "2" | 3 => "3" | 4 => "4" | 5 => "5"
  | 6 => "6" | 7 => "7" | 8 => "8" | 9 => "9" | 10 => "a" | 11 => "b"
  | 12 => "c" | 13 => "d" | 14 => "e" | _ => "f"
  end%char.

Definition escape2 (c : ascii) : string :=
  String backslash (String c EmptyString).

Definition quote_char (c : ascii) : string :=
  let n := nat_of_ascii c in
  if Nat.eqb n 8 then escape2 "b"
  else if Nat.eqb n 9 then escape2 "t"
  else if Nat.eqb n 10 then escape2 "n"
  else if Nat.eqb n 12 then escape2 "f"
  else if Nat.eqb n 13 then escape2 "r"
  else if Nat.eqb n 34 then escape2 dquote
  else if Nat.eqb n 92 then escape2 backslash
  else if Nat.ltb n 32 then
    String backslash
      (String "u" (String "0" (String "0"
         (String (hex_digit (n / 16)) (String (hex_digit (n mod 16)) EmptyString)))))
  else String c EmptyString.

Fixpoint quote_chars (s : string) : string :=
  match s with
  | EmptyString => EmptyString
  | String c rest => quote_char c ++ quote_chars rest
  end.

Definition QuoteJSONString (s : string) : string :=
  String dquote (quote_chars s ++ String dquote EmptyString).

Definition gap : string := "  ".

Fixpoint join_with (sep : string) (parts : list string) : string :=
  match parts with
  | [] => EmptyString
  | [p] => p
  | p :: rest => p ++ sep ++ join_with sep rest
  end.

Definition wrap (open close stepback indent : string) (partial : list string) : string :=
  match partial with
  | [] => open ++ close
  | _ :: _ =>
      open ++ newline ++ indent
        ++ join_with ("," ++ newline ++ indent) partial
        ++ newline ++ stepback ++ close
  end.

(** [SerializeJSONProperty]: [None] stands for the [undefined] that makes
    the caller skip a property (or print [null] in an array). *)
Fixpoint SerializeJSONProperty (stepback : string) (v : value) : option string :=
  match v with
  | VUndefined => None
  | VNull => Some "null"
  | VBool true => Some "true"
  | VBool false => Some "false"
  | VNum n => Some (Number_toString n)
  | VStr s => Some (QuoteJSONString s)
  | VArr items =>
      let indent := stepback ++ gap in
      Some (wrap "[" "]" stepback indent
              ((fix elements (l : list value) : list string :=
                  match l with
                  | [] => []
                  | x :: rest =>
                      match SerializeJSONProperty indent x with
                      | Some s => s
                      | None => "null"
                      end :: elements rest
                  end) items))
  | VObj props =>
      let indent := stepback ++ gap in
      Some (wrap "{" "}" stepback indent
              ((fix members (l : list (string * value)) : list string :=
                  match l with
                  | [] => []
                  | (k, x) :: rest =>
                      match SerializeJSONProperty indent x with
                      | Some s => (QuoteJSONString k ++ ": " ++ s) :: members rest
                      | None => members rest
                      end
                  end) props))
  end.

(** [JSON.stringify(v, null, 2)]: a string, or [undefined] for [undefined]. *)
Definition JSON_stringify (v : value) : value :=
  match SerializeJSONProperty EmptyString v with
  | Some s => VStr s
  | None => VUndefined
  end.

End JS.
Import JS.

(** ** Computations on the engine: state, exceptions, promises *)

(** A JavaScript [Map] with string keys: the entries in insertion order.
    Tools are registered under string names (supabase-tools.js passes
    literals), so the registry is such a map. *)
Definition Map (V : Type) : Type := list (string * V).

(** [m.set(k, v)]: an existing key keeps its place and takes the new value, a
    new key goes last. *)
Fixpoint Map_set {V : Type} (m : Map V) (k : string) (v : V) : Map V :=
  match m with
  | [] => [(k, v)]
  | (k', v') :: rest =>
      if String.eqb k k' then (k, v) :: rest else (k', v') :: Map_set rest k v
  end.

Fixpoint Map_get_key {V : Type} (m : Map V) (k : string) : option V :=
  match m with
  | [] => None
  | (k', v) :: rest => if String.eqb k k' then Some v else Map_get_key rest k
  end.

(** [m.get(k)] for any value [k]: keys are compared by SameValueZero, so only
    a string can hit a string key. *)
Definition Map_get {V : Type} (m : Map V) (k : value) : option V :=
  match k with
  | VStr s => Map_get_key m s
  | _ => None
  end.

Definition Map_keys {V : Type} (m : Map V) : list string := map fst m.
Definition Map_values {V : Type} (m : Map V) : list V := map snd m.

(** A tool descriptor as [addTool] stores it. *)
Record Tool : Type := mkTool {
  name : string;
  description : value;
  inputSchema : value;
  handler : value -> promise
}.

(** The fields of an [MCPServer]; [emitted] is the log of the signals sent
    through the inherited [EventEmitter], oldest first. *)
Record MCPServer : Type := mkMCPServer {
  tools : Map Tool;
  resources : Map value;
  prompts : Map value;
  clientCapabilities : value;
  emitted : list string
}.

Definition M (A : Type) : Type := MCPServer -> MCPServer * outcome A.

Definition ret {A : Type} (a : A) : M A := fun this => (this, Return a).

Definition bind {A B : Type} (m : M A) (k : A -> M B) : M B :=
  fun this =>
    match m this with
    | (this', Return a) => k a this'
    | (this', Throw e) => (this', Throw e)
    end.

Notation "x <- m ;; k" := (bind m (fun x => k))
  (at level 61, m at next level, right associativity).
Notation "m ;;; k" := (bind m (fun _ => k))
  (at level 61, right associativity).

Definition lift {A : Type} (o : outcome A) : M A := fun this => (this, o).

Definition get_this : M MCPServer := fun this => (this, Return this).

(** [try { body } catch (error) { handler error }] *)
Definition try_catch {A : Type} (body : M A) (handler : exn -> M A) : M A :=
  fun this =>
    match body this with
    | (this', Throw e) => handler e this'
    | done => done
    end.

(** An [async] function, called on the engine. *)
Definition Async : Type := MCPServer -> MCPServer * promise.

Definition async (body : M returned) : Async :=
  fun this =>
    match body this with
    | (this', Return (Plain v)) => (this', Fulfilled v)
    | (this', Return (Thenable p)) => (this', p)
    | (this', Throw e) => (this', Rejected e)
    end.

(** Calling an [async] function never throws: it yields the promise. *)
Definition call_async (f : Async) : M promise :=
  fun this => let (this', p) := f this in (this', Return p).

Definition await (p : promise) : M value :=
  match p with
  | Fulfilled v => ret v
  | Rejected e => lift (Throw e)
  end.

(** [error.message] in a [catch] clause. *)
Definition error_message (error : exn) : outcome value :=
  match error with
  | ErrorObject _ message => Return (VStr message)
  | Thrown v => member v "message"
  end.

(** [s === literal] for a string literal. *)
Definition strict_equal (v : value) (literal : string) : bool :=
  match v with
  | VStr s => String.eqb s literal
  | _ => false
  end.

(** ** class MCPServer *)

(** [new MCPServer()] *)
Definition new_MCPServer : MCPServer :=
  {| tools := []; resources := []; prompts := [];
     clientCapabilities := VNull; emitted := [] |}.

Definition addTool (name : string) (description inputSchema : value)
    (handler : value -> promise) (this : MCPServer) : MCPServer :=
  {| tools := Map_set (tools this) name (mkTool name description inputSchema handler);
     resources := resources this;
     prompts := prompts this;
     clientCapabilities := clientCapabilities this;
     emitted := emitted this |}.

Definition set_clientCapabilities (capabilities : value) : M unit :=
  fun this =>
    ({| tools := tools this; resources := resources this; prompts := prompts this;
        clientCapabilities := capabilities; emitted := emitted this |},
     Return tt).

Definition emit (signal : string) : M unit :=
  fun this =>
    ({| tools := tools this; resources := resources this; prompts := prompts this;
        clientCapabilities := clientCapabilities this;
        emitted := (emitted this ++ [signal])%list |},
     Return tt).

Definition createErrorResponse (id : value) (code : Z) (message : value) : value :=
  VObj [("jsonrpc", VStr "2.0");
        ("id", id);
        ("error", VObj [("code", VNum code); ("message", message)])].

Definition handleInitialize (params id : value) : M value :=
  capabilities <- lift (member params "capabilities") ;;
  set_clientCapabilities capabilities ;;;
  ret (VObj
         [("jsonrpc", VStr "2.0");
          ("id", id);
          ("result",
           VObj
             [("protocolVersion", VStr "2024-11-05");
              ("capabilities",
               VObj
                 [("tools", VObj [("listChanged", VBool false)]);
                  ("resources",
                   VObj [("subscribe", VBool false); ("listChanged", VBool false)]);
                  ("prompts", VObj [("listChanged", VBool false)])]);
              ("serverInfo",
               VObj [("name", VStr "supabase-mcp-server");
                     ("version", VStr "1.0.0")])])]).

Definition handleInitialized : M value :=
  emit "initialized" ;;;
  ret VNull.

Definition handleToolsList (id : value) : M value :=
  this <- get_this ;;
  let tools :=
    map (fun tool =>
           VObj [("name", VStr (name tool));
                 ("description", description tool);
                 ("inputSchema", inputSchema tool)])
        (Map_values (tools this)) in
  ret (VObj [("jsonrpc", VStr "2.0");
             ("id", id);
             ("result", VObj [("tools", VArr tools)])]).

Definition handleToolCall (params id : value) : Async :=
  async (
    lift (destructure params "params" "name") ;;;
    let name := Get params "name" in
    let args := Get params "arguments" in
    this <- get_this ;;
    match Map_get (tools this) name with
    | None =>
        shown <- lift (ToString name) ;;
        ret (Plain (createErrorResponse id (-32602) (VStr ("Tool not found: " ++ shown))))
    | Some tool =>
        try_catch
          (result <- await (handler tool args) ;;
           ret (Plain
                  (VObj [("jsonrpc", VStr "2.0");
                         ("id", id);
                         ("result",
                          VObj [("content",
                                 VArr [VObj [("type", VStr "text");
                                             ("text", JSON_stringify result)]])])])))
          (fun error =>
             message <- lift (error_message error) ;;
             shown <- lift (ToString message) ;;
             ret (Plain (createErrorResponse id (-32603)
                           (VStr ("Tool execution failed: " ++ shown)))))
    end).

Definition handleMessage (message : value) : Async :=
  async (
    try_catch
      (lift (destructure message "message" "method") ;;;
       let method := Get message "method" in
       let params := Get message "params" in
       let id := Get message "id" in
       if strict_equal method "initialize" then
         response <- handleInitialize params id ;;
         ret (Plain response)
       else if strict_equal method "tools/list" then
         response <- handleToolsList id ;;
         ret (Plain response)
       else if strict_equal method "tools/call" then
         pending <- call_async (handleToolCall params id) ;;
         ret (Thenable pending)
       else if strict_equal method "notifications/initialized" then
         response <- handleInitialized ;;
         ret (Plain response)
       else
         shown <- lift (ToString method) ;;
         ret (Plain (createErrorResponse id (-32601)
                       (VStr ("Method not found: " ++ shown)))))
      (fun error =>
         id <- lift (member message "id") ;;
         text <- lift (error_message error) ;;
         ret (Plain (createErrorResponse id (-32603) text)))).

(** ** Notions used to state the properties *)

(** [part] occurs inside [text]. *)
Definition includes (text part : string) : Prop :=
  exists before after, text = before ++ part ++ after.

(** The own keys of an object, in order. *)
Definition own_keys (v : value) : list string :=
  match v with
  | VObj props => map fst props
  | _ => []
  end.

(** One call of [addTool] at start-up, and the engine after a series of
    them on a fresh instance. *)
Definition registration : Type := string * value * value * (value -> promise).

Definition registered_name (r : registration) : string :=
  let '(n, _, _, _) := r in n.

Definition register (this : MCPServer) (r : registration) : MCPServer :=
  let '(n, d, i, h) := r in addTool n d i h this.

Definition startup (rs : list registration) : MCPServer :=
  fold_left register rs new_MCPServer.

(** The names of a series of registrations in order of first appearance. *)
Fixpoint first_occurrences (names : list string) : list string :=
  match names with
  | [] => []
  | n :: rest =>
      n :: filter (fun m => negb (String.eqb m n)) (first_occurrences rest)
  end.

(** The public view of a descriptor, as an entry of tools/list. *)
Definition listed (n : string) (d i : value) : value :=
  VObj [("name", VStr n); ("description", d); ("inputSchema", i)].

(** A request envelope as a client sends it. *)
Definition request (id : value) (method : string) (params : value) : value :=
  VObj [("jsonrpc", VStr "2.0"); ("id", id); ("method", VStr method);
        ("params", params)].

(** A request envelope without the optional params. *)
Definition bare_request (id : value) (method : string) : value :=
  VObj [("jsonrpc", VStr "2.0"); ("id", id); ("method", VStr method)].

(** The error code an envelope carries; [undefined] when it has none. *)
Definition error_code (response : value) : value :=
  Get (Get response "error") "code".



(** A tools/call request whose params can be destructured and whose [name],
    whatever it is, resolves to no registered tool; [shown] is the name as a
    template literal prints it. *)
Definition unresolved_tool_call (this : MCPServer) (message : value)
    (shown : string) : Prop :=
  member message "method" = Return (VStr "tools/call")
  /\ nullish (Get message "params") = None
  /\ Map_get (tools this) (Get (Get message "params") "name") = None
  /\ ToString (Get (Get message "params") "name") = Return shown.


(** Two handlers and an engine holding them, for the examples. *)
Definition count_rows (_ : value) : promise :=
  Fulfilled (VObj [("data", VArr [VNum 1; VNum 2]); ("count", VNum 2)]).

Definition unsupported (_ : value) : promise :=
  Rejected (ErrorObject "Error" "Unsupported action: merge").

Definition example_server : MCPServer :=
  startup [("supabase_query", VStr "Execute CRUD operations on Supabase",
            VObj [("type", VStr "object")], count_rows);
           ("supabase_schema", VStr "Query database schema",
            VObj [("type", VStr "object")], unsupported)].

(** Induction over values that reaches the items of arrays and the
    properties of objects. *)
Section ValueInduction.
Variable P : value -> Prop.
Hypothesis Pundefined : P VUndefined.
Hypothesis Pnull : P VNull.
Hypothesis Pbool : forall b, P (VBool b).
Hypothesis Pnum : forall n, P (VNum n).
Hypothesis Pstr : forall s, P (VStr s).
Hypothesis Parr : forall items, Forall P items -> P (VArr items).
Hypothesis Pobj :
  forall props, Forall (fun kv => P (snd kv)) props -> P (VObj props).

Fixpoint value_nested_ind (v : value) : P v :=
  match v with
  | VUndefined => Pundefined
  | VNull => Pnull
  | VBool b => Pbool b
  | VNum n => Pnum n
  | VStr s => Pstr s
  | VArr items =>
      Parr items
        ((fix all (l : list value) : Forall P l :=
            match l with
            | [] => Forall_nil P
            | x :: rest => Forall_cons x (value_nested_ind x) (all rest)
            end) items)
  | VObj props =>
      Pobj props
        ((fix all (l : list (string * value)) : Forall (fun kv => P (snd kv)) l :=
            match l with
            | [] => Forall_nil _
            | kv :: rest => Forall_cons kv (value_nested_ind (snd kv)) (all rest)
            end) props)
  end.
End ValueInduction.

(** ** src/supabase-tools.js and src/server.js: further built-ins *)

(** [ToBoolean]: what [if (v)], [!v] and [v || w] test. *)
Definition ToBoolean (v : value) : bool :=
  match v with
  | VUndefined | VNull => false
  | VBool b => b
  | VNum n => negb (Z.eqb n 0)
  | VStr s => negb (String.eqb s EmptyString)
  | VArr _ | VObj _ => true
  end.

(** [a || b] *)
Definition logical_or (a b : value) : value :=
  if ToBoolean a then a else b.

(** A destructured parameter with a default: [{ p = d }]. *)
Definition default_to (v d : value) : value :=
  match v with
  | VUndefined => d
  | _ => v
  end.

Fixpoint indexed {A : Type} (i : nat) (l : list A) : list (string * A) :=
  match l with
  | [] => []
  | x :: rest => (Number_toString (Z.of_nat i), x) :: indexed (S i) rest
  end.

(** [Object.entries(v)]: the own enumerable properties.  An array and a
    string have their indices as keys (a string is taken unit by unit);
    numbers and booleans have none. *)
Definition Object_entries (v : value) : outcome (list (string * value)) :=
  match v with
  | VUndefined | VNull =>
      Throw (TypeError "Cannot convert undefined or null to object")
  | VBool _ | VNum _ => Return []
  | VStr s =>
      Return (indexed 0
                (map (fun c => VStr (String c EmptyString)) (list_ascii_of_string s)))
  | VArr items => Return (indexed 0 items)
  | VObj props => Return props
  end.

(** [Object.keys(v)] *)
Definition Object_keys (v : value) : outcome (list string) :=
  match Object_entries v with
  | Return entries => Return (map fst entries)
  | Throw e => Throw e
  end.

(** The method call [v.toString()] on a JSON value. *)
Definition toString_method (v : value) (var : string) : outcome string :=
  match v with
  | VUndefined =>
      Throw (TypeError "Cannot read properties of undefined (reading 'toString')")
  | VNull =>
      Throw (TypeError "Cannot read properties of null (reading 'toString')")
  | VObj props =>
      match own_property props "toString" with
      | Some _ => Throw (TypeError (var ++ ".toString is not a function"))
      | None => Return "[object Object]"
      end
  | _ => ToString v
  end.

(** [Array.isArray(v)] *)
Definition isArray (v : value) : bool :=
  match v with
  | VArr _ => true
  | _ => false
  end.

(** *** JSON.stringify(v), without indentation *)

Definition wrap_compact (open close : string) (partial : list string) : string :=
  open ++ join_with "," partial ++ close.

Fixpoint SerializeJSONCompact (v : value) : option string :=
  match v with
  | VUndefined => None
  | VNull => Some "null"
  | VBool true => Some "true"
  | VBool false => Some "false"
  | VNum n => Some (Number_toString n)
  | VStr s => Some (QuoteJSONString s)
  | VArr items =>
      Some (wrap_compact "[" "]"
              ((fix elements (l : list value) : list string :=
                  match l with
                  | [] => []
                  | x :: rest =>
                      match SerializeJSONCompact x with
                      | Some s => s
                      | None => "null"
                      end :: elements rest
                  end) items))
  | VObj props =>
      Some (wrap_compact "{" "}"
              ((fix members (l : list (string * value)) : list string :=
                  match l with
                  | [] => []
                  | (k, x) :: rest =>
                      match SerializeJSONCompact x with
                      | Some s => (QuoteJSONString k ++ ":" ++ s) :: members rest
                      | None => members rest
                      end
                  end) props))
  end.

Definition JSON_stringify_compact (v : value) : value :=
  match SerializeJSONCompact v with
  | Some s => VStr s
  | None => VUndefined
  end.

(** *** URLSearchParams *)
Module URLSearchParams.

(** The parameters appended so far, in order. *)
Definition t : Type := list (string * string).

Definition append (params : t) (name value : string) : t :=
  (params ++ [(name, value)])%list.

Definition upper_hex_digit (n : nat) : ascii :=
  match n with
  | 0 => "0" | 1 => "1" | 2 => "2" | 3 => "3" | 4 => "4" | 5 => "5"
  | 6 => "6" | 7 => "7" | 8 => "8" | 9 => "9" | 10 => "A" | 11 => "B"
  | 12 => "C" | 13 => "D" | 14 => "E" | _ => "F"
  end%char.

(** Bytes the form-urlencoded serializer leaves as they are: ASCII letters
    and digits and the four marks * - . _ *)
Definition unreserved (n : nat) : bool :=
  (Nat.leb 48 n && Nat.leb n 57)
  || (Nat.leb 65 n && Nat.leb n 90)
  || (Nat.leb 97 n && Nat.leb n 122)
  || Nat.eqb n 42 || Nat.eqb n 45 || Nat.eqb n 46 || Nat.eqb n 95.

Definition encode_byte (c : ascii) : string :=
  let n := nat_of_ascii c in
  if Nat.eqb n 32 then "+"
  else if unreserved n then String c EmptyString
  else String "%" (String (upper_hex_digit (n / 16))
                     (String (upper_hex_digit (n mod 16)) EmptyString)).

Fixpoint encode (s : string) : string :=
  match s with
  | EmptyString => EmptyString
  | String c rest => encode_byte c ++ encode rest
  end.

(** [params.toString()] *)
Definition toString (params : t) : string :=
  join_with "&" (map (fun p => encode (fst p) ++ "=" ++ encode (snd p)) params).

End URLSearchParams.

(** *** fetch *)
Module Net.

Record Request : Type := mkRequest {
  url : string;
  method : string;
  headers : list (string * string);
  body : value
}.

(** A response as the handlers read it: [ok], [status], and what
    [text()] and [json()] settle to. *)
Record Response : Type := mkResponse {
  ok : bool;
  status : Z;
  text : outcome string;
  json : outcome value
}.

Inductive Fetched : Type :=
| Responded (r : Response)
| Failed (e : exn).

End Net.

(** What lies outside the program: the backend behind [fetch] and the
    clock behind [new Date().toISOString()]. *)
Record World : Type := mkWorld {
  fetch : Net.Request -> Net.Fetched;
  now : string
}.

(** Computations that may throw and that call [fetch]: the state is the log
    of the requests sent so far. *)
Definition Eff (A : Type) : Type :=
  list Net.Request -> list Net.Request * outcome A.

Definition pure {A : Type} (a : A) : Eff A := fun log => (log, Return a).

Definition raise {A : Type} (e : exn) : Eff A := fun log => (log, Throw e).

Definition check {A : Type} (o : outcome A) : Eff A := fun log => (log, o).

Definition and_then {A B : Type} (m : Eff A) (k : A -> Eff B) : Eff B :=
  fun log =>
    match m log with
    | (log', Return a) => k a log'
    | (log', Throw e) => (log', Throw e)
    end.

Notation "x <~ m ;; k" := (and_then m (fun x => k))
  (at level 61, m at next level, right associativity).

(** [await fetch(url, options)] *)
Definition await_fetch (world : World) (request : Net.Request) : Eff Net.Response :=
  fun log =>
    match fetch world request with
    | Net.Responded r => ((log ++ [request])%list, Return r)
    | Net.Failed e => ((log ++ [request])%list, Throw e)
    end.

(** An [async] method of [SupabaseTools], called once: the requests it
    sent and the settlement of its promise. *)
Definition settle (body : Eff value) : list Net.Request * promise :=
  match body [] with
  | (log, Return v) => (log, Fulfilled v)
  | (log, Throw e) => (log, Rejected e)
  end.

(** Destructuring of the single parameter of a handler. *)
Definition destructure_parameter (args : value) (first : string) : outcome unit :=
  match args with
  | VUndefined =>
      Throw (TypeError ("Cannot destructure property '" ++ first
                          ++ "' of 'undefined' as it is undefined."))
  | VNull =>
      Throw (TypeError ("Cannot destructure property '" ++ first
                          ++ "' of 'object null' as it is null."))
  | _ => Return tt
  end.

(** ** class SupabaseTools *)

Record SupabaseTools : Type := mkSupabaseTools {
  supabaseUrl : string;
  supabaseKey : string
}.

(** [new SupabaseTools()], given the two environment variables. *)
Definition new_SupabaseTools (SUPABASE_URL SUPABASE_SERVICE_ROLE_KEY : option string)
    : outcome SupabaseTools :=
  match SUPABASE_URL, SUPABASE_SERVICE_ROLE_KEY with
  | Some u, Some k =>
      if String.eqb u EmptyString || String.eqb k EmptyString
      then Throw (ErrorObject "Error" "Supabase credentials not configured")
      else Return (mkSupabaseTools u k)
  | _, _ => Throw (ErrorObject "Error" "Supabase credentials not configured")
  end.

(** The filters of a query as parameters: [key=eq.value] for each entry. *)
Fixpoint append_filters (params : URLSearchParams.t) (entries : list (string * value))
    : outcome URLSearchParams.t :=
  match entries with
  | [] => Return params
  | (key, v) :: rest =>
      match ToString v with
      | Throw e => Throw e
      | Return shown =>
          append_filters (URLSearchParams.append params key ("eq." ++ shown)) rest
      end
  end.

Definition credentials (this : SupabaseTools) : list (string * string) :=
  [("apikey", supabaseKey this);
   ("Authorization", "Bearer " ++ supabaseKey this);
   ("Content-Type", "application/json")].

Definition executeQuery_run (this : SupabaseTools) (world : World) (args : value)
    : list Net.Request * promise :=
  settle (
    _ <~ check (destructure_parameter args "action") ;;
    let action := Get args "action" in
    let table := Get args "table" in
    let data := default_to (Get args "data") (VObj []) in
    let filters := default_to (Get args "filters") (VObj []) in
    let select := default_to (Get args "select") (VStr "*") in
    let limit := Get args "limit" in
    let orderBy := Get args "orderBy" in
    let headers := credentials this in
    shown <~ check (ToString table) ;;
    let url := supabaseUrl this ++ "/rest/v1/" ++ shown in
    request <~
      (if strict_equal action "select" then
         let queryParams : URLSearchParams.t := [] in
         queryParams <~
           (if ToBoolean select && negb (strict_equal select "*") then
              s <~ check (ToString select) ;;
              pure (URLSearchParams.append queryParams "select" s)
            else pure queryParams) ;;
         entries <~ check (Object_entries filters) ;;
         queryParams <~ check (append_filters queryParams entries) ;;
         queryParams <~
           (if ToBoolean limit then
              s <~ check (toString_method limit "limit") ;;
              pure (URLSearchParams.append queryParams "limit" s)
            else pure queryParams) ;;
         queryParams <~
           (if ToBoolean orderBy then
              s <~ check (ToString orderBy) ;;
              pure (URLSearchParams.append queryParams "order" s)
            else pure queryParams) ;;
         let url :=
           if String.eqb (URLSearchParams.toString queryParams) EmptyString then url
           else url ++ "?" ++ URLSearchParams.toString queryParams in
         pure (Net.mkRequest url "GET" headers VNull)
       else if strict_equal action "insert" then
         let headers := (headers ++ [("Prefer", "return=representation")])%list in
         pure (Net.mkRequest url "POST" headers (JSON_stringify_compact data))
       else if strict_equal action "update" then
         let headers := (headers ++ [("Prefer", "return=representation")])%list in
         let body := JSON_stringify_compact data in
         keys <~ check (Object_keys filters) ;;
         if Nat.ltb 0 (length keys) then
           entries <~ check (Object_entries filters) ;;
           queryParams <~ check (append_filters [] entries) ;;
           pure (Net.mkRequest (url ++ "?" ++ URLSearchParams.toString queryParams)
                   "PATCH" headers body)
         else
           raise (ErrorObject "Error"
                    "UPDATE requires filters to specify which records to update")
       else if strict_equal action "delete" then
         let headers := (headers ++ [("Prefer", "return=representation")])%list in
         keys <~ check (Object_keys filters) ;;
         if Nat.ltb 0 (length keys) then
           entries <~ check (Object_entries filters) ;;
           queryParams <~ check (append_filters [] entries) ;;
           pure (Net.mkRequest (url ++ "?" ++ URLSearchParams.toString queryParams)
                   "DELETE" headers VNull)
         else
           raise (ErrorObject "Error"
                    "DELETE requires filters to specify which records to delete")
       else
         shown <~ check (ToString action) ;;
         raise (ErrorObject "Error" ("Unsupported action: " ++ shown))) ;;
    response <~ await_fetch world request ;;
    if negb (Net.ok response) then
      errorText <~ check (Net.text response) ;;
      raise (ErrorObject "Error"
               ("Supabase error (" ++ Number_toString (Net.status response) ++ "): "
                  ++ errorText))
    else
      result <~ check (Net.json response) ;;
      pure (VObj [("success", VBool true);
                  ("action", action);
                  ("table", table);
                  ("data", result);
                  ("count",
                   if isArray result
                   then VNum (Z.of_nat (length (match result with
                                                | VArr rows => rows
                                                | _ => []
                                                end)))
                   else if ToBoolean result then VNum 1 else VNum 0);
                  ("timestamp", VStr (now world))])).

Definition executeQuery (this : SupabaseTools) (world : World) (args : value)
    : promise :=
  snd (executeQuery_run this world args).

Definition modifySchema_run (world : World) (args : value)
    : list Net.Request * promise :=
  settle (
    _ <~ check (destructure_parameter args "operation") ;;
    let operation := Get args "operation" in
    let table := Get args "table" in
    let column := Get args "column" in
    let dataType := Get args "dataType" in
    let result (message : string) :=
      VObj [("success", VBool true);
            ("operation", operation);
            ("table", table);
            ("real_modification", VBool true);
            ("message", VStr message);
            ("warning",
             VStr "⚠️ Schema modifications are prepared but require additional SQL setup for execution");
            ("timestamp", VStr (now world))] in
    message <~
      (if strict_equal operation "create_table" then
         t <~ check (ToString table) ;;
         pure ("PREPARED: Create table '" ++ t ++ "' with basic structure")
       else if strict_equal operation "add_column" then
         if negb (ToBoolean column) || negb (ToBoolean dataType) then
           raise (ErrorObject "Error"
                    "Column name and data type required for add_column")
         else
           c <~ check (ToString column) ;;
           d <~ check (ToString dataType) ;;
           t <~ check (ToString table) ;;
           pure ("PREPARED: Add column '" ++ c ++ "' of type '" ++ d
                   ++ "' to table '" ++ t ++ "'")
       else if strict_equal operation "drop_column" then
         if negb (ToBoolean column) then
           raise (ErrorObject "Error" "Column name required for drop_column")
         else
           c <~ check (ToString column) ;;
           t <~ check (ToString table) ;;
           pure ("PREPARED: Drop column '" ++ c ++ "' from table '" ++ t
                   ++ "'. DESTRUCTIVE OPERATION!")
       else if strict_equal operation "drop_table" then
         t <~ check (ToString table) ;;
         pure ("PREPARED: Drop table '" ++ t ++ "'. DESTRUCTIVE OPERATION!")
       else
         shown <~ check (ToString operation) ;;
         raise (ErrorObject "Error"
                  ("Unsupported modification operation: " ++ shown))) ;;
    pure (VObj [("success", VBool true); ("data", result message)])).

Definition modifySchema (world : World) (args : value) : promise :=
  snd (modifySchema_run world args).

Definition string_property (description : string) : value :=
  VObj [("type", VStr "string"); ("description", VStr description)].

Definition enum_property (options : list string) (description : string) : value :=
  VObj [("type", VStr "string");
        ("enum", VArr (map VStr options));
        ("description", VStr description)].

Definition supabase_query_schema : value :=
  VObj
    [("type", VStr "object");
     ("properties",
      VObj
        [("action",
          enum_property ["select"; "insert"; "update"; "delete"]
            "Type of operation to perform");
         ("table", string_property "Table name in Supabase");
         ("data",
          VObj [("type", VStr "object");
                ("description", VStr "Data for insert/update operations")]);
         ("filters",
          VObj [("type", VStr "object");
                ("description", VStr "WHERE conditions for the query")]);
         ("select", string_property "Columns to select (default: *)");
         ("limit",
          VObj [("type", VStr "number");
                ("description", VStr "Limit number of results")]);
         ("orderBy",
          string_property
            ("Order by clause (e.g., "
               ++ String dquote ("name.asc" ++ String dquote ")")))]);
     ("required", VArr [VStr "action"; VStr "table"])].

Definition supabase_schema_schema : value :=
  VObj
    [("type", VStr "object");
     ("properties",
      VObj
        [("operation",
          enum_property ["list_tables"; "describe_table"; "table_stats"]
            "Type of schema operation");
         ("table",
          string_property
            "Table name (required for describe_table and table_stats)")]);
     ("required", VArr [VStr "operation"])].

Definition supabase_modify_schema_schema : value :=
  VObj
    [("type", VStr "object");
     ("properties",
      VObj
        [("operation",
          enum_property ["create_table"; "add_column"; "drop_column"; "drop_table"]
            "Type of schema modification");
         ("table", string_property "Table name");
         ("column", string_property "Column name (for column operations)");
         ("dataType",
          string_property
            "Data type for add_column (text, integer, boolean, etc.)")]);
     ("required", VArr [VStr "operation"; VStr "table"])].

(** [registerTools(mcpServer)].  [querySchema] is not embedded: it is taken
    as it is bound, an opaque handler. *)
Definition registerTools (this : SupabaseTools) (world : World)
    (querySchema : value -> promise) (mcpServer : MCPServer) : MCPServer :=
  addTool "supabase_modify_schema"
    (VStr "Modify database structure (REAL modifications)")
    supabase_modify_schema_schema (modifySchema world)
    (addTool "supabase_schema" (VStr "Query database schema information")
       supabase_schema_schema querySchema
       (addTool "supabase_query" (VStr "Execute CRUD operations on Supabase")
          supabase_query_schema (executeQuery this world) mcpServer)).

(** ** src/server.js *)

(** The engine as server.js sets it up: the tools are registered if the
    credentials are configured, and left out otherwise. *)
Definition mcpServer (SUPABASE_URL SUPABASE_SERVICE_ROLE_KEY : option string)
    (world : World) (querySchema : value -> promise) : MCPServer :=
  match new_SupabaseTools SUPABASE_URL SUPABASE_SERVICE_ROLE_KEY with
  | Return supabaseTools =>
      registerTools supabaseTools world querySchema new_MCPServer
  | Throw _ => new_MCPServer
  end.

(** The reply of an HTTP endpoint: the status, and the object given to
    [res.json] if any. *)
Record Reply : Type := mkReply {
  code : Z;
  sent : option value
}.

(** [app.post('/mcp/http', ...)] on a request with body [body].  Reading
    [message.method] stands for the log line that prints it. *)
Definition post_mcp_http (body : value) : M Reply :=
  try_catch
    (let message := body in
     _ <- lift (member message "method") ;;
     pending <- call_async (handleMessage message) ;;
     response <- await pending ;;
     if ToBoolean response then ret (mkReply 200 (Some response))
     else ret (mkReply 204 None))
    (fun error =>
       id <- lift (member body "id") ;;
       text <- lift (error_message error) ;;
       ret (mkReply 500
              (Some (VObj [("jsonrpc", VStr "2.0");
                           ("id", logical_or id VNull);
                           ("error",
                            VObj [("code", VNum (-32603));
                                  ("message", text)])])))).

(** [ws.on('message', ...)]: [parsed] is the completion of
    [JSON.parse(data.toString())]; the result lists the frames given to
    [ws.send]. *)
Definition on_message (parsed : outcome value) : M (list value) :=
  try_catch
    (message <- lift parsed ;;
     _ <- lift (member message "method") ;;
     pending <- call_async (handleMessage message) ;;
     response <- await pending ;;
     if ToBoolean response then ret [JSON_stringify_compact response]
     else ret [])
    (fun error =>
       ret [JSON_stringify_compact
              (VObj [("jsonrpc", VStr "2.0");
                     ("id", VNull);
                     ("error",
                      VObj [("code", VNum (-32700));
                            ("message", VStr "Parse error")])])]).

(** The frame the WebSocket endpoint sends from its [catch]. *)
Definition parse_error_frame : value :=
  JSON_stringify_compact
    (VObj [("jsonrpc", VStr "2.0");
           ("id", VNull);
           ("error", VObj [("code", VNum (-32700)); ("message", VStr "Parse error")])]).

(** A backend for the examples: it answers every request with one row. *)
Definition one_row : World :=
  {| fetch := fun _ =>
       Net.Responded
         (Net.mkResponse true 200 (Return "[{}]") (Return (VArr [VObj [("id", VNum 1)]])));
     now := "2025-01-01T00:00:00.000Z" |}.

(** A backend that refuses every request. *)
Definition refusing : World :=
  {| fetch := fun _ =>
       Net.Responded
         (Net.mkResponse false 401 (Return "Invalid API key")
            (Return (VObj [("message", VStr "Invalid API key")])));
     now := "2025-01-01T00:00:00.000Z" |}.

Definition example_tools : SupabaseTools :=
  mkSupabaseTools "https://db.example.co" "service-key".

(** [s] begins with [prefix]. *)
Definition starts_with (s prefix : string) : Prop :=
  exists rest, s = prefix ++ rest.

(** How often the character [c] occurs in [s]. *)
Fixpoint count_char (c : ascii) (s : string) : nat :=
  match s with
  | EmptyString => 0
  | String c' rest => (if Ascii.eqb c c' then 1 else 0) + count_char c rest
  end.

(** The text of [s] before the first [c]; all of [s] if it holds none. *)
Fixpoint before_char (c : ascii) (s : string) : string :=
  match s with
  | EmptyString => EmptyString
  | String c' rest =>
      if Ascii.eqb c c' then EmptyString else String c' (before_char c rest)
  end.

(** The text of [s] after the first [c], if it holds one. *)
Fixpoint after_char (c : ascii) (s : string) : option string :=
  match s with
  | EmptyString => None
  | String c' rest => if Ascii.eqb c c' then Some rest else after_char c rest
  end.

(** The query of a URL as the backend reads it: what follows the first "?"
    within the part that precedes the fragment, which the first "#" opens. *)
Definition url_query (url : string) : option string :=
  after_char "?" (before_char "#" url).

(** ** Basic facts about the built-ins and the monad *)

Lemma member_Return (v : value) (k : string) (x : value) :
  member v k = Return x -> nullish v = None /\ Get v k = x.
Proof.
  unfold member. destruct (nullish v); intros H.
  - discriminate.
  - injection H as <-. split; reflexivity.
Qed.

Lemma destructure_coercible (v : value) (var first : string) :
  nullish v = None -> destructure v var first = Return tt.
Proof. intros H. unfold destructure. rewrite H. reflexivity. Qed.

Lemma member_coercible (v : value) (k : string) :
  nullish v = None -> member v k = Return (Get v k).
Proof. intros H. unfold member. rewrite H. reflexivity. Qed.

Lemma includes_suffix (prefix part : string) : includes (prefix ++ part) part.
Proof.
  exists prefix, EmptyString.
  replace (part ++ EmptyString) with part; [reflexivity|].
  induction part as [|c part IH]; simpl; [reflexivity | now rewrite <- IH].
Qed.

Lemma strict_equal_other (m literal : string) :
  m <> literal -> strict_equal (VStr m) literal = false.
Proof. intros H. simpl. now apply String.eqb_neq. Qed.

(** Unfolds the plumbing of a method body. *)
Ltac run :=
  unfold async, try_catch, call_async, bind, lift, ret, get_this, await,
    set_clientCapabilities, emit;
  simpl.

(** Brings a request with a known method to the branch of the dispatcher
    that serves it. *)
Ltac dispatch Hmethod :=
  let Hc := fresh "Hcoercible" in
  let Hm := fresh "Hm" in
  destruct (member_Return _ _ _ Hmethod) as [Hc Hm];
  unfold handleMessage;
  rewrite (destructure_coercible _ "message" "method" Hc), Hm.

(** ** The dispatcher, method by method *)

(** C7: an [initialize] request whose params carry capabilities is answered
    with the fixed protocol version, capability set and server identity,
    whatever the capabilities sent; these are stored in [clientCapabilities]
    and nothing else of the engine changes. *)
Theorem initialize_fixed_result (this : MCPServer) (message capabilities : value) :
  member message "method" = Return (VStr "initialize") ->
  member (Get message "params") "capabilities" = Return capabilities ->
  handleMessage message this =
    ({| tools := tools this; resources := resources this; prompts := prompts this;
        clientCapabilities := capabilities; emitted := emitted this |},
     Fulfilled
       (VObj
          [("jsonrpc", VStr "2.0");
           ("id", Get message "id");
           ("result",
            VObj
              [("protocolVersion", VStr "2024-11-05");
               ("capabilities",
                VObj
                  [("tools", VObj [("listChanged", VBool false)]);
                   ("resources",
                    VObj [("subscribe", VBool false); ("listChanged", VBool false)]);
                   ("prompts", VObj [("listChanged", VBool false)])]);
               ("serverInfo",
                VObj [("name", VStr "supabase-mcp-server");
                      ("version", VStr "1.0.0")])])])).
Proof.
  intros Hmethod Hcaps. dispatch Hmethod.
  unfold handleInitialize. rewrite Hcaps. reflexivity.
Qed.

Lemma initialize_fixed_result_witness :
  clientCapabilities
    (fst (handleMessage
            (request (VNum 1) "initialize"
               (VObj [("capabilities", VObj [("foo", VBool true)])]))
            example_server))
  = VObj [("foo", VBool true)].
Proof.
  rewrite (initialize_fixed_result example_server
             (request (VNum 1) "initialize"
                (VObj [("capabilities", VObj [("foo", VBool true)])]))
             (VObj [("foo", VBool true)]));
    reflexivity.
Defined.

(** C9: [notifications/initialized] fulfils with [null], which the transport
    does not send, and adds exactly one "initialized" signal to those
    emitted; registry and capabilities stay as they are. *)
Theorem initialized_notification_silent (this : MCPServer) (message : value) :
  member message "method" = Return (VStr "notifications/initialized") ->
  exists this',
    handleMessage message this = (this', Fulfilled VNull)
    /\ emitted this' = (emitted this ++ ["initialized"])%list
    /\ tools this' = tools this
    /\ clientCapabilities this' = clientCapabilities this.
Proof.
  intros Hmethod. dispatch Hmethod.
  eexists. split; [reflexivity | repeat split].
Qed.

Lemma initialized_notification_silent_witness :
  exists this',
    handleMessage (VObj [("jsonrpc", VStr "2.0");
                         ("method", VStr "notifications/initialized")])
      example_server = (this', Fulfilled VNull)
    /\ emitted this' = (emitted example_server ++ ["initialized"])%list
    /\ tools this' = tools example_server
    /\ clientCapabilities this' = clientCapabilities example_server.
Proof.
  apply (initialized_notification_silent example_server). reflexivity.
Defined.

(** C8: a request whose method name is none of the four recognized ones is
    answered with an error envelope: version tag "2.0", the request's id,
    and an error with code -32601 whose message names the method; the
    engine is left unchanged. *)
Theorem unknown_method_not_found (this : MCPServer) (message : value) (m : string) :
  member message "method" = Return (VStr m) ->
  ~ In m ["initialize"; "tools/list"; "tools/call"; "notifications/initialized"] ->
  exists response,
    handleMessage message this = (this, Fulfilled response)
    /\ response =
         VObj [("jsonrpc", VStr "2.0");
               ("id", Get message "id");
               ("error",
                VObj [("code", VNum (-32601));
                      ("message", VStr ("Method not found: " ++ m))])]
    /\ Get (Get response "error") "code" = VNum (-32601)
    /\ exists shown,
         Get (Get response "error") "message" = VStr shown
         /\ includes shown m.
Proof.
  intros Hmethod Hother. eexists. split.
  - dispatch Hmethod.
    rewrite !strict_equal_other by (intros ->; apply Hother; simpl; tauto).
    reflexivity.
  - split; [reflexivity|]. split; [reflexivity|].
    eexists. split; [reflexivity|].
    exact (includes_suffix "Method not found: " m).
Qed.

Lemma unknown_method_not_found_witness :
  exists response,
    handleMessage (bare_request (VStr "q-7") "resources/list") example_server
    = (example_server, Fulfilled response)
    /\ response =
         VObj [("jsonrpc", VStr "2.0");
               ("id", Get (bare_request (VStr "q-7") "resources/list") "id");
               ("error",
                VObj [("code", VNum (-32601));
                      ("message", VStr ("Method not found: " ++ "resources/list"))])]
    /\ Get (Get response "error") "code" = VNum (-32601)
    /\ exists shown,
         Get (Get response "error") "message" = VStr shown
         /\ includes shown "resources/list".
Proof.
  apply (unknown_method_not_found example_server
           (bare_request (VStr "q-7") "resources/list") "resources/list").
  - reflexivity.
  - simpl. intros [H|[H|[H|[H|[]]]]]; discriminate H.
Defined.

(** ** tools/call *)

(** The body of [handleToolCall] once the destructuring of params has
    succeeded. *)
Lemma handleToolCall_coercible (this : MCPServer) (params id : value) :
  nullish params = None ->
  handleToolCall params id this =
    async
      (match Map_get (tools this) (Get params "name") with
       | None =>
           shown <- lift (ToString (Get params "name")) ;;
           ret (Plain (createErrorResponse id (-32602)
                         (VStr ("Tool not found: " ++ shown))))
       | Some tool =>
           try_catch
             (result <- await (handler tool (Get params "arguments")) ;;
              ret (Plain
                     (VObj [("jsonrpc", VStr "2.0");
                            ("id", id);
                            ("result",
                             VObj [("content",
                                    VArr [VObj [("type", VStr "text");
                                                ("text", JSON_stringify result)]])])])))
             (fun error =>
                message <- lift (error_message error) ;;
                shown <- lift (ToString message) ;;
                ret (Plain (createErrorResponse id (-32603)
                              (VStr ("Tool execution failed: " ++ shown)))))
       end) this.
Proof.
  intros Hc. unfold handleToolCall.
  rewrite (destructure_coercible _ "params" "name" Hc).
  reflexivity.
Qed.

(** A tools/call request is answered with whatever [handleToolCall]
    settles to: the dispatcher returns the promise as it is. *)
Lemma handleMessage_tools_call (this : MCPServer) (message : value) :
  member message "method" = Return (VStr "tools/call") ->
  handleMessage message this =
    handleToolCall (Get message "params") (Get message "id") this.
Proof.
  intros Hmethod. dispatch Hmethod. run.
  destruct (handleToolCall _ _ this) as [this' p]. reflexivity.
Qed.

(** C4: when the handler of the named, registered tool fails with a
    message, the request is answered with an error envelope: version tag
    "2.0", the request's id, and an error with code -32603 whose message
    contains the handler's text. *)
Theorem failing_handler_internal_error
    (this : MCPServer) (message : value) (tool : Tool) (thrown : exn) (text : string) :
  member message "method" = Return (VStr "tools/call") ->
  nullish (Get message "params") = None ->
  Map_get (tools this) (Get (Get message "params") "name") = Some tool ->
  handler tool (Get (Get message "params") "arguments") = Rejected thrown ->
  error_message thrown = Return (VStr text) ->
  exists response,
    handleMessage message this = (this, Fulfilled response)
    /\ response =
         VObj [("jsonrpc", VStr "2.0");
               ("id", Get message "id");
               ("error",
                VObj [("code", VNum (-32603));
                      ("message", VStr ("Tool execution failed: " ++ text))])]
    /\ Get (Get response "error") "code" = VNum (-32603)
    /\ exists shown,
         Get (Get response "error") "message" = VStr shown
         /\ includes shown text.
Proof.
  intros Hmethod Hparams Htool Hthrows Htext.
  eexists. split.
  - rewrite (handleMessage_tools_call _ _ Hmethod).
    rewrite (handleToolCall_coercible _ _ _ Hparams), Htool.
    run. rewrite Hthrows. simpl. rewrite Htext. reflexivity.
  - split; [reflexivity|]. split; [reflexivity|].
    eexists. split; [reflexivity|].
    exact (includes_suffix "Tool execution failed: " text).
Qed.

Lemma failing_handler_internal_error_witness :
  exists response,
    handleMessage
      (request (VNum 3) "tools/call"
         (VObj [("name", VStr "supabase_schema"); ("arguments", VObj [])]))
      example_server = (example_server, Fulfilled response)
    /\ response =
         VObj [("jsonrpc", VStr "2.0");
               ("id",
                Get (request (VNum 3) "tools/call"
                       (VObj [("name", VStr "supabase_schema");
                              ("arguments", VObj [])])) "id");
               ("error",
                VObj [("code", VNum (-32603));
                      ("message",
                       VStr ("Tool execution failed: "
                               ++ "Unsupported action: merge"))])]
    /\ Get (Get response "error") "code" = VNum (-32603)
    /\ exists shown,
         Get (Get response "error") "message" = VStr shown
         /\ includes shown "Unsupported action: merge".
Proof.
  apply (failing_handler_internal_error example_server
           (request (VNum 3) "tools/call"
              (VObj [("name", VStr "supabase_schema"); ("arguments", VObj [])]))
           (mkTool "supabase_schema" (VStr "Query database schema")
              (VObj [("type", VStr "object")]) unsupported)
           (ErrorObject "Error" "Unsupported action: merge")
           "Unsupported action: merge");
    reflexivity.
Defined.

(** C5: when the handler of the named, registered tool returns [v], the
    request is answered with a result whose content is one item of type
    "text" holding [JSON.stringify(v, null, 2)]. *)
Theorem successful_handler_text_content
    (this : MCPServer) (message : value) (tool : Tool) (v : value) :
  member message "method" = Return (VStr "tools/call") ->
  nullish (Get message "params") = None ->
  Map_get (tools this) (Get (Get message "params") "name") = Some tool ->
  handler tool (Get (Get message "params") "arguments") = Fulfilled v ->
  handleMessage message this =
    (this,
     Fulfilled
       (VObj [("jsonrpc", VStr "2.0");
              ("id", Get message "id");
              ("result",
               VObj [("content",
                      VArr [VObj [("type", VStr "text");
                                  ("text", JSON_stringify v)]])])])).
Proof.
  intros Hmethod Hparams Htool Hreturns.
  rewrite (handleMessage_tools_call _ _ Hmethod).
  rewrite (handleToolCall_coercible _ _ _ Hparams), Htool.
  run. rewrite Hreturns. reflexivity.
Qed.

Lemma successful_handler_text_content_witness :
  handleMessage
    (request (VNum 4) "tools/call"
       (VObj [("name", VStr "supabase_query");
              ("arguments", VObj [("action", VStr "select"); ("table", VStr "t")])]))
    example_server =
    (example_server,
     Fulfilled
       (VObj [("jsonrpc", VStr "2.0");
              ("id", VNum 4);
              ("result",
               VObj [("content",
                      VArr [VObj [("type", VStr "text");
                                  ("text",
                                   JSON_stringify
                                     (VObj [("data", VArr [VNum 1; VNum 2]);
                                            ("count", VNum 2)]))]])])])).
Proof.
  apply (successful_handler_text_content example_server
           (request (VNum 4) "tools/call"
              (VObj [("name", VStr "supabase_query");
                     ("arguments",
                      VObj [("action", VStr "select"); ("table", VStr "t")])]))
           (mkTool "supabase_query" (VStr "Execute CRUD operations on Supabase")
              (VObj [("type", VStr "object")]) count_rows));
    reflexivity.
Defined.

(** ** What the dispatcher can fulfil with *)

Lemma strict_equal_true (v : value) (literal : string) :
  strict_equal v literal = true -> v = VStr literal.
Proof.
  destruct v; simpl; try discriminate.
  intros H. apply String.eqb_eq in H. now subst.
Qed.

Lemma member_method (message : value) (literal : string) :
  nullish message = None ->
  strict_equal (Get message "method") literal = true ->
  member message "method" = Return (VStr literal).
Proof.
  intros Hc H. rewrite (member_coercible _ _ Hc).
  now rewrite (strict_equal_true _ _ H).
Qed.

(** Every value [handleToolCall] fulfils with, by the branch taken. *)
Lemma handleToolCall_fulfilled (this this' : MCPServer) (params id response : value) :
  handleToolCall params id this = (this', Fulfilled response) ->
  nullish params = None
  /\ ((exists payload,
         response = VObj [("jsonrpc", VStr "2.0"); ("id", id); ("result", payload)])
      \/ (exists text, response = createErrorResponse id (-32603) text)
      \/ (exists shown,
            response = createErrorResponse id (-32602)
                         (VStr ("Tool not found: " ++ shown))
            /\ Map_get (tools this) (Get params "name") = None
            /\ ToString (Get params "name") = Return shown)).
Proof.
  destruct (nullish params) as [what|] eqn:Hc.
  - unfold handleToolCall, destructure. rewrite Hc. run. discriminate.
  - rewrite (handleToolCall_coercible _ _ _ Hc). intros H. split; [reflexivity|].
    destruct (Map_get (tools this) (Get params "name")) as [tool|] eqn:Htool.
    + revert H. run.
      destruct (handler tool (Get params "arguments")) as [v|e]; simpl.
      * intros H. injection H as _ <-. left. eexists. reflexivity.
      * destruct (error_message e) as [m|e']; simpl; [|discriminate].
        destruct (ToString m) as [shown|e']; simpl; [|discriminate].
        intros H. injection H as _ <-. right. left. eexists. reflexivity.
    + revert H. run.
      destruct (ToString (Get params "name")) as [shown|e]; simpl; [|discriminate].
      intros H. injection H as _ <-. right. right.
      exists shown. repeat split.
Qed.

(** Every value [handleMessage] fulfils with: [null], a result envelope,
    or an error envelope with one of three codes, always with the id of the
    request; -32602 comes from the registry lookup of tools/call alone. *)
Lemma handleMessage_fulfilled (this this' : MCPServer) (message response : value) :
  handleMessage message this = (this', Fulfilled response) ->
  response = VNull
  \/ (exists payload,
        response = VObj [("jsonrpc", VStr "2.0"); ("id", Get message "id");
                         ("result", payload)])
  \/ (exists text, response = createErrorResponse (Get message "id") (-32601) text)
  \/ (exists text, response = createErrorResponse (Get message "id") (-32603) text)
  \/ (exists shown,
        response = createErrorResponse (Get message "id") (-32602)
                     (VStr ("Tool not found: " ++ shown))
        /\ unresolved_tool_call this message shown).
Proof.
  destruct (nullish message) as [what|] eqn:Hc.
  { unfold handleMessage, destructure, member. rewrite Hc. run. discriminate. }
  destruct (strict_equal (Get message "method") "tools/call") eqn:Hcall.
  { pose proof (member_method _ _ Hc Hcall) as Hmethod.
    rewrite (handleMessage_tools_call _ _ Hmethod). intros H.
    apply handleToolCall_fulfilled in H.
    destruct H as [Hp [[payload ->]|[[text ->]|[shown [-> [Hget Hshown]]]]]].
    - right. left. eexists. reflexivity.
    - right. right. right. left. eexists. reflexivity.
    - right. right. right. right. exists shown. split; [reflexivity|].
      repeat split; assumption. }
  unfold handleMessage.
  rewrite (destructure_coercible _ "message" "method" Hc),
    (member_coercible _ "id" Hc).
  run. rewrite Hcall.
  destruct (strict_equal (Get message "method") "initialize").
  { unfold handleInitialize. run.
    destruct (member (Get message "params") "capabilities") as [c|e]; simpl.
    - intros H. injection H as _ <-. right. left. eexists. reflexivity.
    - destruct (error_message e) as [m|e']; simpl; [|discriminate].
      intros H. injection H as _ <-. right. right. right. left.
      eexists. reflexivity. }
  destruct (strict_equal (Get message "method") "tools/list").
  { unfold handleToolsList. run.
    intros H. injection H as _ <-. right. left. eexists. reflexivity. }
  destruct (strict_equal (Get message "method") "notifications/initialized").
  { unfold handleInitialized. run.
    intros H. injection H as _ <-. left. reflexivity. }
  destruct (ToString (Get message "method")) as [shown|e]; simpl.
  - intros H. injection H as _ <-. right. right. left. eexists. reflexivity.
  - destruct (error_message e) as [m|e']; simpl; [|discriminate].
    intros H. injection H as _ <-. right. right. right. left.
    eexists. reflexivity.
Qed.

(** ** Error -32602 *)




(** ** The registry *)

Section MapFacts.
Context {V : Type}.
Implicit Types (m : Map V) (k : string) (v : V).

Lemma Map_keys_set m k v :
  Map_keys (Map_set m k v) =
    if existsb (String.eqb k) (Map_keys m) then Map_keys m
    else (Map_keys m ++ [k])%list.
Proof.
  induction m as [|[k' v'] m IH]; simpl; [reflexivity|].
  destruct (String.eqb k k') eqn:E; simpl.
  - apply String.eqb_eq in E. now subst.
  - rewrite IH. now destruct (existsb (String.eqb k) (Map_keys m)).
Qed.

Lemma Map_get_key_set m k v k' :
  Map_get_key (Map_set m k v) k' =
    if String.eqb k' k then Some v else Map_get_key m k'.
Proof.
  induction m as [|[k0 v0] m IH]; simpl.
  - now destruct (String.eqb k' k).
  - destruct (String.eqb k k0) eqn:E; simpl.
    + apply String.eqb_eq in E. subst k0.
      now destruct (String.eqb k' k).
    + rewrite IH. destruct (String.eqb k' k0) eqn:E0; [|reflexivity].
      apply String.eqb_eq in E0. subst k0.
      destruct (String.eqb k' k) eqn:E1; [|reflexivity].
      apply String.eqb_eq in E1. subst k'.
      rewrite String.eqb_refl in E. discriminate.
Qed.

(** Setting a key that is present rewrites its entry where it stands. *)
Lemma Map_set_present m k v old :
  Map_get_key m k = Some old ->
  exists front back,
    m = (front ++ (k, old) :: back)%list
    /\ Map_set m k v = (front ++ (k, v) :: back)%list.
Proof.
  induction m as [|[k0 v0] m IH]; simpl; [discriminate|].
  destruct (String.eqb k k0) eqn:E.
  - apply String.eqb_eq in E. subst k0. intros [= ->].
    exists [], m. split; reflexivity.
  - intros H. destruct (IH H) as (front & back & -> & ->).
    exists ((k0, v0) :: front), back. split; reflexivity.
Qed.

Lemma Map_set_Forall (P : string * V -> Prop) m k v :
  Forall P m -> P (k, v) -> Forall P (Map_set m k v).
Proof.
  intros Hm Hkv. induction Hm as [|[k0 v0] m H0 Hm IH]; simpl.
  - constructor; [assumption | constructor].
  - destruct (String.eqb k k0); constructor; assumption.
Qed.
End MapFacts.

Lemma filter_filter {A : Type} (p q : A -> bool) (l : list A) :
  filter p (filter q l) = filter (fun x => p x && q x) l.
Proof.
  induction l as [|x l IH]; simpl; [reflexivity|].
  destruct (q x); simpl.
  - rewrite andb_true_r. destruct (p x); now rewrite IH.
  - now rewrite andb_false_r.
Qed.

Lemma first_occurrences_In (names : list string) (n : string) :
  In n (first_occurrences names) <-> In n names.
Proof.
  induction names as [|a names IH]; simpl; [tauto|].
  rewrite filter_In, IH, negb_true_iff, String.eqb_neq.
  destruct (string_dec a n) as [->|Hne]; [tauto|].
  split; [tauto|]. intros [H|H]; [tauto|]. right. split; [assumption|congruence].
Qed.

Lemma first_occurrences_NoDup (names : list string) :
  NoDup (first_occurrences names).
Proof.
  induction names as [|a names IH]; simpl; constructor.
  - rewrite filter_In, negb_true_iff, String.eqb_neq. tauto.
  - now apply NoDup_filter.
Qed.

Lemma tools_register (this : MCPServer) (r : registration) :
  tools (register this r) =
    Map_set (tools this) (registered_name r)
      (let '(n, d, i, h) := r in mkTool n d i h).
Proof. destruct r as [[[n d] i] h]. reflexivity. Qed.

(** The keys of the registry after a series of registrations: the keys it
    had, then the new names in order of first appearance. *)
Lemma Map_keys_registered (rs : list registration) (this : MCPServer) :
  Map_keys (tools (fold_left register rs this)) =
    (Map_keys (tools this)
       ++ filter (fun n => negb (existsb (String.eqb n) (Map_keys (tools this))))
            (first_occurrences (map registered_name rs)))%list.
Proof.
  revert this. induction rs as [|r rs IH]; intros this; simpl.
  - now rewrite app_nil_r.
  - rewrite IH, tools_register, Map_keys_set.
    set (K := Map_keys (tools this)). set (n := registered_name r).
    rewrite filter_filter.
    destruct (existsb (String.eqb n) K) eqn:Hin; simpl.
    + f_equal. apply filter_ext. intros x.
      destruct (String.eqb x n) eqn:E; [|now rewrite andb_true_r].
      apply String.eqb_eq in E. subst x. now rewrite Hin.
    + rewrite <- app_assoc. simpl. do 2 f_equal. apply filter_ext. intros x.
      rewrite existsb_app. simpl. rewrite orb_false_r. apply negb_orb.
  Qed.

Lemma Map_keys_startup (rs : list registration) :
  Map_keys (tools (startup rs)) = first_occurrences (map registered_name rs).
Proof.
  unfold startup. rewrite Map_keys_registered. simpl. apply filter_true.
Qed.

(** Registration keeps every descriptor under its own name. *)
Lemma registered_under_own_name (rs : list registration) (this : MCPServer) :
  Forall (fun entry => name (snd entry) = fst entry) (tools this) ->
  Forall (fun entry => name (snd entry) = fst entry)
    (tools (fold_left register rs this)).
Proof.
  revert this. induction rs as [|r rs IH]; intros this Hthis; simpl.
  - assumption.
  - apply IH. rewrite tools_register. apply Map_set_Forall; [assumption|].
    destruct r as [[[n d] i] h]. reflexivity.
Qed.

Lemma listed_names (m : Map Tool) :
  Forall (fun entry => name (snd entry) = fst entry) m ->
  map (fun entry => Get entry "name")
    (map (fun tool =>
            VObj [("name", VStr (name tool));
                  ("description", description tool);
                  ("inputSchema", inputSchema tool)])
       (Map_values m))
  = map VStr (Map_keys m).
Proof.
  induction 1 as [|[k t] m Hk Hm IH]; simpl; [reflexivity|].
  simpl in Hk. rewrite Hk. f_equal. exact IH.
Qed.

(** ** tools/list *)

(** C6: on an engine whose registry was filled by a series of [addTool]
    calls, tools/list answers with a result whose entries carry exactly the
    keys of the registry, in the order in which the names were first
    registered; every entry has the keys name, description and inputSchema
    and no other, so no handler shows. *)
Theorem tools_list_registration_order
    (rs : list registration) (this : MCPServer) (message : value) :
  member message "method" = Return (VStr "tools/list") ->
  tools this = tools (startup rs) ->
  exists entries,
    handleMessage message this =
      (this,
       Fulfilled (VObj [("jsonrpc", VStr "2.0");
                        ("id", Get message "id");
                        ("result", VObj [("tools", VArr entries)])]))
    /\ map (fun entry => Get entry "name") entries = map VStr (Map_keys (tools this))
    /\ Map_keys (tools this) = first_occurrences (map registered_name rs)
    /\ Forall (fun entry => own_keys entry = ["name"; "description"; "inputSchema"])
         entries.
Proof.
  intros Hmethod Htools. dispatch Hmethod.
  eexists. split; [reflexivity|]. split; [|split].
  - apply listed_names. rewrite Htools.
    apply registered_under_own_name. constructor.
  - rewrite Htools. apply Map_keys_startup.
  - apply Forall_map. apply Forall_forall. reflexivity.
Qed.

Lemma tools_list_registration_order_witness :
  exists entries,
    handleMessage (bare_request (VNum 2) "tools/list") example_server =
      (example_server,
       Fulfilled (VObj [("jsonrpc", VStr "2.0");
                        ("id", Get (bare_request (VNum 2) "tools/list") "id");
                        ("result", VObj [("tools", VArr entries)])]))
    /\ map (fun entry => Get entry "name") entries
       = map VStr (Map_keys (tools example_server))
    /\ Map_keys (tools example_server) = ["supabase_query"; "supabase_schema"]
    /\ Forall (fun entry => own_keys entry = ["name"; "description"; "inputSchema"])
         entries.
Proof.
  apply (tools_list_registration_order
           [("supabase_query", VStr "Execute CRUD operations on Supabase",
             VObj [("type", VStr "object")], count_rows);
            ("supabase_schema", VStr "Query database schema",
             VObj [("type", VStr "object")], unsupported)]
           example_server (bare_request (VNum 2) "tools/list"));
    reflexivity.
Defined.

(** The descriptor found under a name that has been registered is named
    after it, whatever was registered since. *)
Lemma registered_name_kept (n : string) (rs : list registration) (this : MCPServer) :
  (exists t, Map_get_key (tools this) n = Some t /\ name t = n) ->
  exists t, Map_get_key (tools (fold_left register rs this)) n = Some t /\ name t = n.
Proof.
  revert this. induction rs as [|r rs IH]; intros this Hthis; simpl.
  - assumption.
  - apply IH. rewrite tools_register, Map_get_key_set.
    destruct r as [[[k d] i] h]. simpl.
    destruct (String.eqb n k) eqn:E; [|assumption].
    apply String.eqb_eq in E. subst k. eexists. split; reflexivity.
Qed.

(** C10: registering [n], then any other tools, then [n] again leaves the
    registry's order as it was before the second registration, which is the
    order of first registration: tools/list reports the same entries in the
    same places, except that the entry of [n], where it stood, now shows the
    new description and schema; and the registry holds the new descriptor
    under [n]. *)
Theorem reregistration_keeps_position
    (this : MCPServer) (n : string) (d1 i1 : value) (h1 : value -> promise)
    (others : list registration)
    (d2 i2 : value) (h2 : value -> promise) (id : value) :
  exists front old back,
    handleToolsList id
      (fold_left register others (addTool n d1 i1 h1 this)) =
      (fold_left register others (addTool n d1 i1 h1 this),
       Return (VObj [("jsonrpc", VStr "2.0");
                     ("id", id);
                     ("result", VObj [("tools", VArr (front ++ old :: back)%list)])]))
    /\ handleToolsList id
         (addTool n d2 i2 h2 (fold_left register others (addTool n d1 i1 h1 this))) =
         (addTool n d2 i2 h2 (fold_left register others (addTool n d1 i1 h1 this)),
          Return (VObj [("jsonrpc", VStr "2.0");
                        ("id", id);
                        ("result",
                         VObj [("tools",
                                VArr (front ++ listed n d2 i2 :: back)%list)])]))
    /\ Get old "name" = VStr n
    /\ Map_keys
         (tools (addTool n d2 i2 h2
                   (fold_left register others (addTool n d1 i1 h1 this))))
       = Map_keys (tools (fold_left register others (addTool n d1 i1 h1 this)))
    /\ Map_keys
         (tools (addTool n d2 i2 h2
                   (fold_left register others (addTool n d1 i1 h1 this))))
       = (Map_keys (tools this)
            ++ filter
                 (fun k => negb (existsb (String.eqb k) (Map_keys (tools this))))
                 (first_occurrences (n :: map registered_name others)))%list
    /\ Map_get_key
         (tools (addTool n d2 i2 h2
                   (fold_left register others (addTool n d1 i1 h1 this)))) n
       = Some (mkTool n d2 i2 h2).
Proof.
  set (before := fold_left register others (addTool n d1 i1 h1 this)).
  destruct (registered_name_kept n others (addTool n d1 i1 h1 this))
    as (t & Hfound & Hname).
  { simpl. rewrite Map_get_key_set, String.eqb_refl.
    eexists. split; reflexivity. }
  fold before in Hfound.
  destruct (Map_set_present (tools before) n (mkTool n d2 i2 h2) t Hfound)
    as (front & back & Hbefore & Hafter).
  set (public := fun tool =>
                   VObj [("name", VStr (name tool));
                         ("description", description tool);
                         ("inputSchema", inputSchema tool)]).
  exists (map public (Map_values front)), (public t), (map public (Map_values back)).
  assert (Hkeys : Map_keys (tools (addTool n d2 i2 h2 before))
                  = Map_keys (tools before)).
  { simpl. rewrite Hafter, Hbefore. unfold Map_keys. now rewrite !map_app. }
  split; [|split; [|split; [|split; [|split]]]].
  - unfold handleToolsList. run. rewrite Hbefore.
    unfold Map_values. now rewrite !map_app.
  - unfold handleToolsList. run. rewrite Hafter.
    unfold Map_values. now rewrite !map_app.
  - simpl. now rewrite Hname.
  - exact Hkeys.
  - rewrite Hkeys.
    exact (Map_keys_registered ((n, d1, i1, h1) :: others) this).
  - simpl. now rewrite Map_get_key_set, String.eqb_refl.
Qed.

(** ** Failures and the dispatch boundary *)

Lemma ToString_VArr_cons (x : value) (rest : list value) :
  ToString (VArr (x :: rest)) =
    match (match x with
           | VUndefined | VNull => Return EmptyString
           | _ => ToString x
           end) with
    | Throw e => Throw e
    | Return sx =>
        match rest with
        | [] => Return sx
        | _ :: _ =>
            match ToString (VArr rest) with
            | Throw e => Throw e
            | Return sr => Return (sx ++ "," ++ sr)
            end
        end
    end.
Proof. reflexivity. Qed.

(** [ToString] of a JSON value fails in one way only. *)
Lemma ToString_Throw (v : value) (e : exn) :
  ToString v = Throw e ->
  e = TypeError "Cannot convert object to primitive value".
Proof.
  revert e. induction v as [| |b|n|s|items IH|props _] using value_nested_ind;
    intros e; try discriminate.
  - destruct b; discriminate.
  - induction IH as [|x rest Hx _ IHrest]; [discriminate|].
    rewrite ToString_VArr_cons.
    assert (Hitem :
              forall o,
                match x with
                | VUndefined | VNull => Return EmptyString
                | _ => ToString x
                end = Throw o ->
                o = TypeError "Cannot convert object to primitive value").
    { intros o. destruct x; try discriminate; apply Hx. }
    destruct (match x with
              | VUndefined | VNull => Return EmptyString
              | _ => ToString x
              end) as [sx|o].
    + destruct rest as [|y rest]; [discriminate|].
      destruct (ToString (VArr (y :: rest))) as [sr|o]; [discriminate|].
      intros [= <-]. now apply IHrest.
    + intros [= <-]. now apply Hitem.
  - simpl. destruct (own_property props "toString"); [|discriminate].
    now intros [= <-].
Qed.

(** Outside tools/call the [try]/[catch] of [handleMessage] does its work:
    whatever the envelope holds, the request is fulfilled. *)
Lemma handleMessage_fulfils_outside_tools_call (this : MCPServer) (message : value) :
  nullish message = None ->
  strict_equal (Get message "method") "tools/call" = false ->
  exists this' response, handleMessage message this = (this', Fulfilled response).
Proof.
  intros Hc Hcall. unfold handleMessage.
  rewrite (destructure_coercible _ "message" "method" Hc),
    (member_coercible _ "id" Hc).
  run. rewrite Hcall.
  destruct (strict_equal (Get message "method") "initialize").
  { unfold handleInitialize. run.
    destruct (member (Get message "params") "capabilities") as [c|e] eqn:Hm; simpl.
    - eexists _, _. reflexivity.
    - unfold member in Hm.
      destruct (nullish (Get message "params")); [|discriminate].
      injection Hm as <-. eexists _, _. reflexivity. }
  destruct (strict_equal (Get message "method") "tools/list").
  { eexists _, _. reflexivity. }
  destruct (strict_equal (Get message "method") "notifications/initialized").
  { eexists _, _. reflexivity. }
  destruct (ToString (Get message "method")) as [shown|e] eqn:Hshown; simpl.
  - eexists _, _. reflexivity.
  - rewrite (ToString_Throw _ _ Hshown). eexists _, _. reflexivity.
Qed.

(** The envelopes the dispatcher fulfils with are framed: version tag, the
    id of the request, and either a result or an error. *)
Lemma fulfilled_response_framing (this this' : MCPServer) (message response : value) :
  handleMessage message this = (this', Fulfilled response) ->
  response = VNull
  \/ (Get response "jsonrpc" = VStr "2.0"
      /\ Get response "id" = Get message "id"
      /\ (own_keys response = ["jsonrpc"; "id"; "result"]
          \/ own_keys response = ["jsonrpc"; "id"; "error"])).
Proof.
  intros H. apply handleMessage_fulfilled in H.
  destruct H as [->|[[payload ->]|[[text ->]|[[text ->]|[shown [-> _]]]]]];
    [left; reflexivity | right; repeat split; auto ..].
Qed.

(** A failure inside [initialize] is caught at the boundary: without params
    the request is answered with error -32603 and its id. *)
Lemma initialize_without_params_internal_error (this : MCPServer) (id : value) :
  handleMessage (bare_request id "initialize") this =
    (this,
     Fulfilled (createErrorResponse id (-32603)
                  (VStr "Cannot read properties of undefined (reading 'capabilities')"))).
Proof. reflexivity. Qed.

(** A tools/call request whose params are missing or [null] is not
    answered: [handleToolCall] rejects while destructuring params, and
    [handleMessage] settles as that promise does. *)
Lemma tools_call_nullish_params_rejects
    (this : MCPServer) (message : value) (what : string) :
  member message "method" = Return (VStr "tools/call") ->
  nullish (Get message "params") = Some what ->
  handleMessage message this =
    (this,
     Rejected (TypeError ("Cannot destructure property 'name' of 'params' as it is "
                            ++ what ++ "."))).
Proof.
  intros Hmethod Hparams. rewrite (handleMessage_tools_call _ _ Hmethod).
  unfold handleToolCall, destructure. rewrite Hparams. reflexivity.
Qed.

(** C1 does not hold of the code: for a tools/call request without params
    the failure raised in [handleToolCall] is not turned into an error
    envelope.  [handleMessage] returns the promise from inside its [try]
    without awaiting it, so its [catch] is passed by and the promise handed
    to the transport is rejected. *)
Theorem tools_call_without_params_escapes (this : MCPServer) (id : value) :
  handleMessage (bare_request id "tools/call") this =
    (this,
     Rejected
       (TypeError "Cannot destructure property 'name' of 'params' as it is undefined.")).
Proof.
  apply (tools_call_nullish_params_rejects this (bare_request id "tools/call")
           "undefined");
    reflexivity.
Qed.

(** C2 does not hold of the code: a tools/call request that carries an id
    and no params expects a response, and [handleMessage] returns no
    envelope for it, neither result nor error; its promise is rejected. *)
Theorem tools_call_without_params_no_envelope (this : MCPServer) (id : value) :
  (exists e, handleMessage (bare_request id "tools/call") this = (this, Rejected e))
  /\ forall this' response,
       handleMessage (bare_request id "tools/call") this
       <> (this', Fulfilled response).
Proof.
  assert (H : handleMessage (bare_request id "tools/call") this =
                (this,
                 Rejected
                   (TypeError
                      "Cannot destructure property 'name' of 'params' as it is undefined.")))
    by (apply (tools_call_nullish_params_rejects this
                 (bare_request id "tools/call") "undefined");
        reflexivity).
  split.
  - eexists. exact H.
  - intros this' response. rewrite H. discriminate.
Qed.

(** Re-registration at work: "supabase_query" is registered anew after
    "supabase_schema" and still comes first, with its new description. *)
Example reregistration_example :
  handleToolsList (VNum 9)
    (addTool "supabase_query" (VStr "Run a query") VNull count_rows example_server)
  = (addTool "supabase_query" (VStr "Run a query") VNull count_rows example_server,
     Return (VObj [("jsonrpc", VStr "2.0");
                   ("id", VNum 9);
                   ("result",
                    VObj [("tools",
                           VArr [listed "supabase_query" (VStr "Run a query") VNull;
                                 listed "supabase_schema"
                                   (VStr "Query database schema")
                                   (VObj [("type", VStr "object")])])])])).
Proof. reflexivity. Qed.

(** A request without id and without params: the failure of [initialize]
    is answered with an id that is [undefined], which the transport leaves
    out when it serializes the envelope. *)
Example initialize_without_id :
  handleMessage (VObj [("jsonrpc", VStr "2.0"); ("method", VStr "initialize")])
    new_MCPServer
  = (new_MCPServer,
     Fulfilled (createErrorResponse VUndefined (-32603)
                  (VStr "Cannot read properties of undefined (reading 'capabilities')"))).
Proof. reflexivity. Qed.


(** ** supabase_query: the request sent to the backend *)

(** Unfolds the plumbing of a handler of [SupabaseTools]. *)
Ltac unfold_handler :=
  cbv beta zeta iota delta
    [executeQuery executeQuery_run modifySchema modifySchema_run
     settle and_then check pure raise await_fetch].

(** Splits on the innermost scrutinee left in the goal. *)
Ltac break :=
  repeat match goal with
    | |- context [match ?x with _ => _ end] =>
        lazymatch x with
        | context [match _ with _ => _ end] => fail
        | _ => destruct x eqn:?
        end
    end.

Lemma append_filters_length (entries : list (string * value))
    (params params' : URLSearchParams.t) :
  append_filters params entries = Return params' ->
  length params' = length params + length entries.
Proof.
  revert params. induction entries as [|[key v] rest IH]; intros params; simpl.
  - intros [= <-]. lia.
  - destruct (ToString v) as [shown|e]; [|discriminate].
    intros H. apply IH in H. rewrite H. unfold URLSearchParams.append.
    rewrite length_app. simpl. lia.
Qed.

(** The anatomy of the request of [executeQuery]: there is at most one; it
    goes to the table's path under the configured URL, carries the
    credentials, and its method, body and query follow from the action. *)
Lemma executeQuery_request (this : SupabaseTools) (world : World) (args : value)
    (request : Net.Request) :
  In request (fst (executeQuery_run this world args)) ->
  fst (executeQuery_run this world args) = [request]
  /\ exists shown,
       ToString (Get args "table") = Return shown
       /\ ((strict_equal (Get args "action") "select" = true
            /\ Net.method request = "GET"
            /\ Net.body request = VNull
            /\ Net.headers request = credentials this
            /\ (Net.url request = supabaseUrl this ++ "/rest/v1/" ++ shown
                \/ exists query,
                     query <> EmptyString
                     /\ Net.url request =
                          (supabaseUrl this ++ "/rest/v1/" ++ shown) ++ "?" ++ query))
           \/ (strict_equal (Get args "action") "insert" = true
               /\ Net.method request = "POST"
               /\ Net.body request =
                    JSON_stringify_compact (default_to (Get args "data") (VObj []))
               /\ Net.headers request =
                    (credentials this ++ [("Prefer", "return=representation")])%list
               /\ Net.url request = supabaseUrl this ++ "/rest/v1/" ++ shown)
           \/ ((strict_equal (Get args "action") "update" = true
                /\ Net.method request = "PATCH"
                /\ Net.body request =
                     JSON_stringify_compact (default_to (Get args "data") (VObj []))
                \/ strict_equal (Get args "action") "delete" = true
                   /\ Net.method request = "DELETE"
                   /\ Net.body request = VNull)
               /\ Net.headers request =
                    (credentials this ++ [("Prefer", "return=representation")])%list
               /\ exists entries params,
                    Object_entries (default_to (Get args "filters") (VObj []))
                    = Return entries
                    /\ entries <> []
                    /\ append_filters [] entries = Return params
                    /\ Net.url request =
                         (supabaseUrl this ++ "/rest/v1/" ++ shown) ++ "?"
                           ++ URLSearchParams.toString params)).
Proof.
  unfold_handler. unfold Object_keys.
  break; simpl; try tauto.
  all: intros [<-|[]]; split; [reflexivity|]; eexists; split; [reflexivity|].
  all: first
         [ solve [left; repeat split;
                  first
                    [ left; reflexivity
                    | right; eexists; split; [|reflexivity];
                      intros Hempty;
                      match goal with
                      | H : String.eqb _ _ = false |- _ =>
                          rewrite Hempty in H; discriminate H
                      end ]]
         | solve [right; left; repeat split]
         | solve [right; right; split; [left; repeat split|]; split; [reflexivity|];
                  eexists _, _; split; [reflexivity|]; split; [|split; [eassumption|reflexivity]];
                  intros ->; discriminate]
         | solve [right; right; split; [right; repeat split|]; split; [reflexivity|];
                  eexists _, _; split; [reflexivity|]; split; [|split; [eassumption|reflexivity]];
                  intros ->; discriminate] ].
Qed.

Lemma append_empty_r (s : string) : s ++ EmptyString = s.
Proof. induction s as [|c s IH]; simpl; [reflexivity | now rewrite IH]. Qed.

Lemma append_assoc (s t u : string) : (s ++ t) ++ u = s ++ t ++ u.
Proof. induction s as [|c s IH]; simpl; [reflexivity | now rewrite IH]. Qed.

Lemma starts_with_refl (s : string) : starts_with s s.
Proof. exists EmptyString. now rewrite append_empty_r. Qed.

Lemma starts_with_append (s rest : string) : starts_with (s ++ rest) s.
Proof. exists rest. reflexivity. Qed.

(** X1: [executeQuery] sends at most one request to the backend.  The
    request goes to the path of the table, printed as it is, under
    /rest/v1/ of the configured URL, and carries the service key both as
    apikey and as bearer token. *)
Theorem executeQuery_single_authenticated_request
    (this : SupabaseTools) (world : World) (args : value) :
  length (fst (executeQuery_run this world args)) <= 1
  /\ forall request,
       In request (fst (executeQuery_run this world args)) ->
       exists shown,
         ToString (Get args "table") = Return shown
         /\ starts_with (Net.url request) (supabaseUrl this ++ "/rest/v1/" ++ shown)
         /\ In ("apikey", supabaseKey this) (Net.headers request)
         /\ In ("Authorization", "Bearer " ++ supabaseKey this) (Net.headers request).
Proof.
  split.
  - destruct (fst (executeQuery_run this world args)) as [|r l] eqn:Hlog; simpl; [lia|].
    destruct (executeQuery_request this world args r) as [Hone _].
    { rewrite Hlog. now left. }
    rewrite Hlog in Hone. injection Hone as ->. simpl. lia.
  - intros request Hin.
    destruct (executeQuery_request _ _ _ _ Hin) as [_ (shown & Hshown & Hcases)].
    exists shown. split; [assumption|].
    destruct Hcases as [(_ & _ & _ & -> & Hurl)
                       |[(_ & _ & _ & -> & ->)
                        |(_ & -> & entries & params & _ & _ & _ & ->)]].
    + split; [|simpl; tauto].
      destruct Hurl as [->|(query & _ & ->)];
        [apply starts_with_refl | apply starts_with_append].
    + split; [apply starts_with_refl | simpl; tauto].
    + split; [apply starts_with_append | simpl; tauto].
Qed.

Lemma executeQuery_single_authenticated_request_witness :
  length (fst (executeQuery_run example_tools one_row
                 (VObj [("action", VStr "select"); ("table", VStr "users");
                        ("limit", VNum 10)]))) <= 1
  /\ exists shown,
       ToString (VStr "users") = Return shown
       /\ starts_with "https://db.example.co/rest/v1/users?limit=10"
            ("https://db.example.co" ++ "/rest/v1/" ++ shown)
       /\ In ("apikey", "service-key")
            (credentials example_tools)
       /\ In ("Authorization", "Bearer " ++ "service-key")
            (credentials example_tools).
Proof.
  split.
  - apply (proj1 (executeQuery_single_authenticated_request example_tools one_row
                    (VObj [("action", VStr "select"); ("table", VStr "users");
                           ("limit", VNum 10)]))).
  - apply (proj2 (executeQuery_single_authenticated_request example_tools one_row
                    (VObj [("action", VStr "select"); ("table", VStr "users");
                           ("limit", VNum 10)]))
             (Net.mkRequest "https://db.example.co/rest/v1/users?limit=10" "GET"
                (credentials example_tools) VNull)).
    simpl. left. reflexivity.
Defined.

(** X2: the HTTP method of the request follows from the action and from
    nothing else: select is sent as GET, insert as POST, update as PATCH and
    delete as DELETE; a body is sent for insert and update only, and it is
    the JSON text of [data], or of an empty object when [data] is missing. *)
Theorem executeQuery_method_by_action
    (this : SupabaseTools) (world : World) (args : value) (request : Net.Request) :
  In request (fst (executeQuery_run this world args)) ->
  (Get args "action" = VStr "select"
   /\ Net.method request = "GET" /\ Net.body request = VNull)
  \/ (Get args "action" = VStr "insert"
      /\ Net.method request = "POST"
      /\ Net.body request =
           JSON_stringify_compact (default_to (Get args "data") (VObj [])))
  \/ (Get args "action" = VStr "update"
      /\ Net.method request = "PATCH"
      /\ Net.body request =
           JSON_stringify_compact (default_to (Get args "data") (VObj [])))
  \/ (Get args "action" = VStr "delete"
      /\ Net.method request = "DELETE" /\ Net.body request = VNull).
Proof.
  intros Hin.
  destruct (executeQuery_request _ _ _ _ Hin) as [_ (shown & _ & Hcases)].
  destruct Hcases as [(Ha & Hm & Hb & _)
                     |[(Ha & Hm & Hb & _)
                      |([(Ha & Hm & Hb)|(Ha & Hm & Hb)] & _)]];
    apply strict_equal_true in Ha; tauto.
Qed.

Lemma executeQuery_method_by_action_witness :
  (Get (VObj [("action", VStr "insert"); ("table", VStr "users")]) "action"
   = VStr "select"
   /\ "POST" = "GET" /\ VStr "{}" = VNull)
  \/ (Get (VObj [("action", VStr "insert"); ("table", VStr "users")]) "action"
      = VStr "insert"
      /\ "POST" = "POST"
      /\ VStr "{}" =
           JSON_stringify_compact
             (default_to (Get (VObj [("action", VStr "insert"); ("table", VStr "users")])
                            "data") (VObj [])))
  \/ (Get (VObj [("action", VStr "insert"); ("table", VStr "users")]) "action"
      = VStr "update"
      /\ "POST" = "PATCH"
      /\ VStr "{}" =
           JSON_stringify_compact
             (default_to (Get (VObj [("action", VStr "insert"); ("table", VStr "users")])
                            "data") (VObj [])))
  \/ (Get (VObj [("action", VStr "insert"); ("table", VStr "users")]) "action"
      = VStr "delete"
      /\ "POST" = "DELETE" /\ VStr "{}" = VNull).
Proof.
  apply (executeQuery_method_by_action example_tools one_row
           (VObj [("action", VStr "insert"); ("table", VStr "users")])
           (Net.mkRequest "https://db.example.co/rest/v1/users" "POST"
              (credentials example_tools
                 ++ [("Prefer", "return=representation")])%list
              (VStr "{}"))).
  simpl. left. reflexivity.
Defined.

Lemma includes_append_l (s t part : string) : includes t part -> includes (s ++ t) part.
Proof.
  intros (before & after & ->). exists (s ++ before), after.
  now rewrite append_assoc.
Qed.

Lemma includes_append_r (s t part : string) : includes s part -> includes (s ++ t) part.
Proof.
  intros (before & after & ->). exists before, (after ++ t).
  now rewrite !append_assoc.
Qed.

Lemma append_filters_snoc (entries : list (string * value))
    (params params' : URLSearchParams.t) :
  append_filters params entries = Return params' ->
  exists added,
    params' = (params ++ added)%list
    /\ length added = length entries
    /\ Forall (fun p => starts_with (snd p) "eq.") added
    /\ map fst added = map fst entries.
Proof.
  revert params params'.
  induction entries as [|[key v] rest IH]; intros params params'; simpl.
  - intros [= <-]. exists []. rewrite app_nil_r. repeat split. constructor.
  - destruct (ToString v) as [shown|e]; [|discriminate].
    intros H. destruct (IH _ _ H) as (added & -> & Hlen & Hall & Hkeys).
    exists ((key, "eq." ++ shown) :: added). unfold URLSearchParams.append.
    rewrite <- app_assoc. simpl. repeat split.
    + now rewrite Hlen.
    + constructor; [exists shown; reflexivity | assumption].
    + now rewrite Hkeys.
Qed.

(** The query of a parameter list that starts with a filter shows it. *)
Lemma filter_query_shown (key rest : string) (params : URLSearchParams.t) :
  includes (URLSearchParams.toString ((key, "eq." ++ rest) :: params)) "=eq.".
Proof.
  set (pair := fun p : string * string =>
                 URLSearchParams.encode (fst p) ++ "=" ++ URLSearchParams.encode (snd p)).
  change (includes (join_with "&" (pair (key, "eq." ++ rest) :: map pair params))
            "=eq.").
  assert (H : includes (pair (key, "eq." ++ rest)) "=eq.").
  { exists (URLSearchParams.encode key), (URLSearchParams.encode rest).
    reflexivity. }
  generalize dependent (pair (key, "eq." ++ rest)). intros head H.
  destruct (map pair params); simpl join_with;
    [exact H | now apply includes_append_r].
Qed.

(** X4: an update or a delete whose [filters] are missing or have no entry
    is refused before anything is sent: the promise is rejected with the
    error that asks for filters, and the backend sees no request. *)
Theorem executeQuery_refuses_unfiltered_mutation
    (this : SupabaseTools) (world : World) (args : value) (shown : string) :
  destructure_parameter args "action" = Return tt ->
  ToString (Get args "table") = Return shown ->
  Object_keys (default_to (Get args "filters") (VObj [])) = Return [] ->
  (Get args "action" = VStr "update" ->
   executeQuery_run this world args =
     ([], Rejected (ErrorObject "Error"
                      "UPDATE requires filters to specify which records to update")))
  /\ (Get args "action" = VStr "delete" ->
      executeQuery_run this world args =
        ([], Rejected (ErrorObject "Error"
                         "DELETE requires filters to specify which records to delete"))).
Proof.
  intros Hargs Htable Hkeys.
  split; intros Haction; unfold_handler;
    rewrite Hargs, Htable, Haction, Hkeys; reflexivity.
Qed.

Lemma executeQuery_refuses_unfiltered_mutation_witness :
  executeQuery_run example_tools one_row
    (VObj [("action", VStr "delete"); ("table", VStr "users"); ("filters", VObj [])])
  = ([], Rejected (ErrorObject "Error"
                     "DELETE requires filters to specify which records to delete")).
Proof.
  apply (proj2 (executeQuery_refuses_unfiltered_mutation example_tools one_row
                  (VObj [("action", VStr "delete"); ("table", VStr "users");
                         ("filters", VObj [])])
                  "users" eq_refl eq_refl eq_refl)).
  reflexivity.
Defined.

(** X5: what the backend refuses is never reported as a success: when the
    response to the request is not ok, the promise is rejected with
    "Supabase error (status): " followed by the text of the response. *)
Theorem executeQuery_reports_backend_error
    (this : SupabaseTools) (world : World) (args : value) (request : Net.Request)
    (response : Net.Response) (errorText : string) :
  In request (fst (executeQuery_run this world args)) ->
  fetch world request = Net.Responded response ->
  Net.ok response = false ->
  Net.text response = Return errorText ->
  executeQuery this world args =
    Rejected (ErrorObject "Error"
                ("Supabase error (" ++ Number_toString (Net.status response) ++ "): "
                   ++ errorText)).
Proof.
  unfold_handler. unfold Object_keys.
  break; simpl; try tauto.
  all: intros [<-|[]] Hfetch Hok Htext; simpl in *.
  all: try congruence.
  all: match goal with
       | H : fetch _ _ = Net.Responded ?r |- _ =>
           tryif constr_eq r response then fail
           else (assert (r = response) by congruence; subst r)
       end.
  all: try (rewrite Hok in *; discriminate).
  all: congruence.
Qed.

Lemma executeQuery_reports_backend_error_witness :
  executeQuery example_tools refusing
    (VObj [("action", VStr "select"); ("table", VStr "users")])
  = Rejected (ErrorObject "Error" "Supabase error (401): Invalid API key").
Proof.
  apply (executeQuery_reports_backend_error example_tools refusing
           (VObj [("action", VStr "select"); ("table", VStr "users")])
           (Net.mkRequest "https://db.example.co/rest/v1/users" "GET"
              (credentials example_tools) VNull)
           (Net.mkResponse false 401 (Return "Invalid API key")
              (Return (VObj [("message", VStr "Invalid API key")])))
           "Invalid API key").
  - simpl. left. reflexivity.
  - reflexivity.
  - reflexivity.
  - reflexivity.
Defined.

(** X6: an ok response is passed on as it is: the rows the backend returns
    are the [data] of the result and [count] is their number; but when the
    body of an ok response cannot be read as JSON, the call fails with the
    reader's error although the backend has accepted the request. *)
Theorem executeQuery_passes_backend_answer
    (this : SupabaseTools) (world : World) (args : value) (request : Net.Request)
    (response : Net.Response) :
  In request (fst (executeQuery_run this world args)) ->
  fetch world request = Net.Responded response ->
  Net.ok response = true ->
  (forall rows,
      Net.json response = Return (VArr rows) ->
      executeQuery this world args =
        Fulfilled (VObj [("success", VBool true);
                         ("action", Get args "action");
                         ("table", Get args "table");
                         ("data", VArr rows);
                         ("count", VNum (Z.of_nat (length rows)));
                         ("timestamp", VStr (now world))]))
  /\ (forall e,
         Net.json response = Throw e ->
         executeQuery this world args = Rejected e).
Proof.
  unfold_handler. unfold Object_keys.
  break; simpl; try tauto.
  all: intros [<-|[]] Hfetch Hok; simpl in *.
  all: try congruence.
  all: match goal with
       | H : fetch _ _ = Net.Responded ?r |- _ =>
           tryif constr_eq r response then fail
           else (assert (r = response) by congruence; subst r)
       end.
  all: try (rewrite Hok in *; discriminate).
  all: split; [intros rows Hjson | intros e' Hjson]; try congruence.
  all: match goal with
       | H : Net.json _ = Return ?v |- _ =>
           rewrite H in Hjson; injection Hjson as ->
       end;
       simpl in *; try discriminate; reflexivity.
Qed.

Lemma executeQuery_passes_backend_answer_witness :
  executeQuery example_tools one_row
    (VObj [("action", VStr "select"); ("table", VStr "users")])
  = Fulfilled (VObj [("success", VBool true);
                     ("action", VStr "select");
                     ("table", VStr "users");
                     ("data", VArr [VObj [("id", VNum 1)]]);
                     ("count", VNum 1);
                     ("timestamp", VStr "2025-01-01T00:00:00.000Z")]).
Proof.
  apply (proj1 (executeQuery_passes_backend_answer example_tools one_row
                  (VObj [("action", VStr "select"); ("table", VStr "users")])
                  (Net.mkRequest "https://db.example.co/rest/v1/users" "GET"
                     (credentials example_tools) VNull)
                  (Net.mkResponse true 200 (Return "[{}]")
                     (Return (VArr [VObj [("id", VNum 1)]])))
                  (or_introl eq_refl) eq_refl eq_refl)
           [VObj [("id", VNum 1)]]).
  reflexivity.
Defined.

(** ** The query string *)

Lemma count_char_append (c : ascii) (s t : string) :
  count_char c (s ++ t) = count_char c s + count_char c t.
Proof.
  induction s as [|c' s IH]; simpl; [reflexivity|]. rewrite IH. lia.
Qed.

Lemma encode_byte_plain (a : ascii) :
  count_char "&" (URLSearchParams.encode_byte a) = 0
  /\ count_char "=" (URLSearchParams.encode_byte a) = 0.
Proof.
  destruct a as [[] [] [] [] [] [] [] []]; split; reflexivity.
Qed.

Lemma encode_plain (s : string) :
  count_char "&" (URLSearchParams.encode s) = 0
  /\ count_char "=" (URLSearchParams.encode s) = 0.
Proof.
  induction s as [|a s [IHamp IHeq]]; simpl; [split; reflexivity|].
  rewrite !count_char_append, IHamp, IHeq.
  destruct (encode_byte_plain a) as [-> ->]. split; reflexivity.
Qed.

Lemma toString_separators (params : URLSearchParams.t) :
  count_char "=" (URLSearchParams.toString params) = length params
  /\ count_char "&" (URLSearchParams.toString params) = pred (length params).
Proof.
  unfold URLSearchParams.toString.
  set (pair := fun p : string * string =>
                 URLSearchParams.encode (fst p) ++ "=" ++ URLSearchParams.encode (snd p)).
  induction params as [|[k v] params [IHeq IHamp]]; [split; reflexivity|].
  assert (Hpair : count_char "=" (pair (k, v)) = 1 /\ count_char "&" (pair (k, v)) = 0).
  { unfold pair. simpl fst. simpl snd. rewrite !count_char_append.
    destruct (encode_plain k) as [-> ->], (encode_plain v) as [-> ->].
    split; reflexivity. }
  change (map pair ((k, v) :: params)) with (pair (k, v) :: map pair params).
  generalize dependent (pair (k, v)). intros head [Hone Hnone].
  destruct params as [|p params].
  - simpl. now rewrite Hone, Hnone.
  - change (join_with "&" (head :: map pair (p :: params)))
      with (head ++ "&" ++ join_with "&" (map pair (p :: params))).
    rewrite !count_char_append, Hone, Hnone, IHeq, IHamp. simpl. split; lia.
Qed.

(** X7: each filter becomes exactly one parameter of the query, whatever
    characters its key and value hold: the query has as many "=" as there
    are filters and one "&" less, and the parameters are named after the
    filters, in their order. *)
Theorem filters_make_one_parameter_each
    (entries : list (string * value)) (params : URLSearchParams.t) :
  append_filters [] entries = Return params ->
  count_char "=" (URLSearchParams.toString params) = length entries
  /\ count_char "&" (URLSearchParams.toString params) = pred (length entries)
  /\ map fst params = map fst entries.
Proof.
  intros H. destruct (append_filters_snoc _ _ _ H) as (added & -> & Hlen & _ & Hkeys).
  simpl. destruct (toString_separators added) as [-> ->].
  rewrite Hlen. repeat split. exact Hkeys.
Qed.

Lemma filters_make_one_parameter_each_witness :
  count_char "=" (URLSearchParams.toString
                    [("a b", "eq.x&y=1"); ("n", "eq.3")]) = 2
  /\ count_char "&" (URLSearchParams.toString
                       [("a b", "eq.x&y=1"); ("n", "eq.3")]) = 1
  /\ map fst [("a b", "eq.x&y=1"); ("n", "eq.3")] = ["a b"; "n"].
Proof.
  apply (filters_make_one_parameter_each
           [("a b", VStr "x&y=1"); ("n", VNum 3)]
           [("a b", "eq.x&y=1"); ("n", "eq.3")]).
  reflexivity.
Defined.

Lemma before_char_absent (c : ascii) (s : string) :
  count_char c s = 0 -> before_char c s = s.
Proof.
  induction s as [|c' s IH]; simpl; [reflexivity|].
  destruct (Ascii.eqb c c'); [discriminate|].
  intros H. now rewrite IH.
Qed.

Lemma after_char_first (c : ascii) (s t : string) :
  count_char c s = 0 -> after_char c (s ++ String c t) = Some t.
Proof.
  induction s as [|c' s IH]; simpl.
  - now rewrite Ascii.eqb_refl.
  - destruct (Ascii.eqb c c'); [discriminate|]. exact IH.
Qed.

Lemma encode_byte_no_delimiter (a : ascii) :
  count_char "#" (URLSearchParams.encode_byte a) = 0
  /\ count_char "?" (URLSearchParams.encode_byte a) = 0.
Proof.
  destruct a as [[] [] [] [] [] [] [] []]; split; reflexivity.
Qed.

Lemma encode_no_delimiter (s : string) :
  count_char "#" (URLSearchParams.encode s) = 0
  /\ count_char "?" (URLSearchParams.encode s) = 0.
Proof.
  induction s as [|a s [IHhash IHmark]]; simpl; [split; reflexivity|].
  rewrite !count_char_append, IHhash, IHmark.
  destruct (encode_byte_no_delimiter a) as [-> ->]. split; reflexivity.
Qed.

(** The serialized parameters hold neither "#" nor "?". *)
Lemma toString_no_delimiter (params : URLSearchParams.t) :
  count_char "#" (URLSearchParams.toString params) = 0
  /\ count_char "?" (URLSearchParams.toString params) = 0.
Proof.
  unfold URLSearchParams.toString.
  set (pair := fun p : string * string =>
                 URLSearchParams.encode (fst p) ++ "=" ++ URLSearchParams.encode (snd p)).
  induction params as [|[k v] params [IHhash IHmark]]; [split; reflexivity|].
  assert (Hpair : count_char "#" (pair (k, v)) = 0 /\ count_char "?" (pair (k, v)) = 0).
  { unfold pair. simpl fst. simpl snd. rewrite !count_char_append.
    destruct (encode_no_delimiter k) as [-> ->], (encode_no_delimiter v) as [-> ->].
    split; reflexivity. }
  change (map pair ((k, v) :: params)) with (pair (k, v) :: map pair params).
  generalize dependent (pair (k, v)). intros head [Hhash Hmark].
  destruct params as [|p params].
  - simpl. now rewrite Hhash, Hmark.
  - change (join_with "&" (head :: map pair (p :: params)))
      with (head ++ "&" ++ join_with "&" (map pair (p :: params))).
    rewrite !count_char_append, Hhash, Hmark, IHhash, IHmark. split; reflexivity.
Qed.

(** X3: a PATCH or DELETE request is sent with its filters.  Its URL is the
    text of the table's path, the table printed as it is, then "?" and the
    serialized filters, of which there is at least one, each of the form
    key=eq.value.  When the configured URL and the printed table hold
    neither "?" nor "#", these filters are the query of the URL. *)
Theorem executeQuery_mutations_are_filtered
    (this : SupabaseTools) (world : World) (args : value) (request : Net.Request) :
  In request (fst (executeQuery_run this world args)) ->
  Net.method request = "PATCH" \/ Net.method request = "DELETE" ->
  exists shown entries params,
    ToString (Get args "table") = Return shown
    /\ Object_entries (default_to (Get args "filters") (VObj [])) = Return entries
    /\ entries <> []
    /\ append_filters [] entries = Return params
    /\ length params = length entries
    /\ Net.url request =
         (supabaseUrl this ++ "/rest/v1/" ++ shown) ++ "?"
           ++ URLSearchParams.toString params
    /\ includes (URLSearchParams.toString params) "=eq."
    /\ (count_char "?" (supabaseUrl this ++ "/rest/v1/" ++ shown) = 0 ->
        count_char "#" (supabaseUrl this ++ "/rest/v1/" ++ shown) = 0 ->
        url_query (Net.url request) = Some (URLSearchParams.toString params)).
Proof.
  intros Hin Hmethod.
  destruct (executeQuery_request _ _ _ _ Hin) as [_ (shown & Hshown & Hcases)].
  destruct Hcases as [(_ & Hm & _)
                     |[(_ & Hm & _)
                      |(_ & _ & entries & params & Hentries & Hsome & Hparams & Hurl)]].
  - rewrite Hm in Hmethod. destruct Hmethod; discriminate.
  - rewrite Hm in Hmethod. destruct Hmethod; discriminate.
  - exists shown, entries, params.
    split; [exact Hshown|]. split; [exact Hentries|]. split; [exact Hsome|].
    split; [exact Hparams|].
    split; [exact (append_filters_length _ _ _ Hparams)|].
    split; [exact Hurl|]. split.
    + destruct (append_filters_snoc _ _ _ Hparams) as (added & -> & Hlen & Hall & _).
      simpl. destruct added as [|[key v] added].
      * destruct entries; [contradiction | discriminate].
      * inversion Hall as [|? ? [rest Hv] _]; subst. simpl in Hv. subst v.
        apply filter_query_shown.
    + intros Hmark Hhash. rewrite Hurl. unfold url_query.
      destruct (toString_no_delimiter params) as [Hqhash Hqmark].
      rewrite before_char_absent.
      * now apply after_char_first.
      * rewrite count_char_append, Hhash. simpl. exact Hqhash.
Qed.

Lemma executeQuery_mutations_are_filtered_witness :
  exists shown entries params,
    ToString (Get (VObj [("action", VStr "delete"); ("table", VStr "users");
                         ("filters", VObj [("id", VNum 7)])]) "table")
    = Return shown
    /\ Object_entries
         (default_to
            (Get (VObj [("action", VStr "delete"); ("table", VStr "users");
                        ("filters", VObj [("id", VNum 7)])]) "filters")
            (VObj []))
       = Return entries
    /\ entries <> []
    /\ append_filters [] entries = Return params
    /\ length params = length entries
    /\ "https://db.example.co/rest/v1/users?id=eq.7"
       = ("https://db.example.co" ++ "/rest/v1/" ++ shown) ++ "?"
           ++ URLSearchParams.toString params
    /\ includes (URLSearchParams.toString params) "=eq."
    /\ (count_char "?" ("https://db.example.co" ++ "/rest/v1/" ++ shown) = 0 ->
        count_char "#" ("https://db.example.co" ++ "/rest/v1/" ++ shown) = 0 ->
        url_query "https://db.example.co/rest/v1/users?id=eq.7"
        = Some (URLSearchParams.toString params)).
Proof.
  apply (executeQuery_mutations_are_filtered example_tools one_row
           (VObj [("action", VStr "delete"); ("table", VStr "users");
                  ("filters", VObj [("id", VNum 7)])])
           (Net.mkRequest "https://db.example.co/rest/v1/users?id=eq.7" "DELETE"
              (credentials example_tools
                 ++ [("Prefer", "return=representation")])%list
              VNull)).
  - simpl. left. reflexivity.
  - right. reflexivity.
Defined.

(** A table name is not escaped: one that holds "#" moves the filters of a
    delete out of the query of the URL, into its fragment. *)
Example unescaped_table_moves_filters :
  map (fun request => (Net.url request, url_query (Net.url request)))
    (fst (executeQuery_run example_tools one_row
            (VObj [("action", VStr "delete"); ("table", VStr "users#");
                   ("filters", VObj [("id", VNum 7)])])))
  = [("https://db.example.co/rest/v1/users#?id=eq.7", None)].
Proof. reflexivity. Qed.

(** ** supabase_modify_schema *)

(** X8: [modifySchema] changes nothing: whatever it is asked, it sends no
    request to the backend.  When it fulfils, the operation is one of the
    four it knows, and the result says success, real_modification true and
    a message that begins with "PREPARED: ". *)
Theorem modifySchema_prepares_only (world : World) (args : value) :
  fst (modifySchema_run world args) = []
  /\ forall v,
       modifySchema world args = Fulfilled v ->
       In (Get args "operation")
         [VStr "create_table"; VStr "add_column"; VStr "drop_column";
          VStr "drop_table"]
       /\ Get v "success" = VBool true
       /\ Get (Get v "data") "real_modification" = VBool true
       /\ Get (Get v "data") "operation" = Get args "operation"
       /\ exists text, Get (Get v "data") "message" = VStr ("PREPARED: " ++ text).
Proof.
  unfold_handler. break; simpl; (split; [reflexivity|]); intros v [= <-].
  all: match goal with
       | H : strict_equal _ _ = true |- _ =>
           rewrite (strict_equal_true _ _ H); simpl
       end.
  all: repeat split; try tauto; eexists; reflexivity.
Qed.

(** X9: add_column is refused unless both a column and a data type are
    given, and drop_column unless a column is given; values such as an empty
    string count as missing. *)
Theorem modifySchema_requires_column (world : World) (args : value) :
  destructure_parameter args "operation" = Return tt ->
  (Get args "operation" = VStr "add_column" ->
   ToBoolean (Get args "column") = false \/ ToBoolean (Get args "dataType") = false ->
   modifySchema world args =
     Rejected (ErrorObject "Error"
                 "Column name and data type required for add_column"))
  /\ (Get args "operation" = VStr "drop_column" ->
      ToBoolean (Get args "column") = false ->
      modifySchema world args =
        Rejected (ErrorObject "Error" "Column name required for drop_column")).
Proof.
  intros Hargs. split.
  - intros Hop Hmissing. unfold_handler. rewrite Hargs, Hop. simpl.
    destruct Hmissing as [-> | ->]; simpl;
      [|rewrite orb_true_r]; reflexivity.
  - intros Hop Hmissing. unfold_handler. rewrite Hargs, Hop, Hmissing.
    reflexivity.
Qed.

Lemma modifySchema_requires_column_witness :
  modifySchema one_row
    (VObj [("operation", VStr "add_column"); ("table", VStr "users");
           ("column", VStr "age"); ("dataType", VStr EmptyString)])
  = Rejected (ErrorObject "Error"
                "Column name and data type required for add_column").
Proof.
  apply (proj1 (modifySchema_requires_column one_row
                  (VObj [("operation", VStr "add_column"); ("table", VStr "users");
                         ("column", VStr "age"); ("dataType", VStr EmptyString)])
                  eq_refl)).
  - reflexivity.
  - right. reflexivity.
Defined.

(** Whatever makes [modifySchema] fail is an error object with a message. *)
Lemma modifySchema_rejects_with_message (world : World) (args : value) (e : exn) :
  modifySchema world args = Rejected e ->
  exists kind text, e = ErrorObject kind text.
Proof.
  unfold_handler. unfold destructure_parameter.
  break; simpl; intros [= <-];
    try (eexists _, _; reflexivity);
    match goal with
    | H : ToString _ = Throw _ |- _ =>
        rewrite (ToString_Throw _ _ H); eexists _, _; reflexivity
    end.
Qed.

(** ** The engine with the Supabase tools *)

Lemma registerTools_modify_schema (this : SupabaseTools) (world : World)
    (querySchema : value -> promise) (server : MCPServer) :
  Map_get_key (tools (registerTools this world querySchema server))
    "supabase_modify_schema"
  = Some (mkTool "supabase_modify_schema"
            (VStr "Modify database structure (REAL modifications)")
            supabase_modify_schema_schema (modifySchema world)).
Proof. simpl. now rewrite Map_get_key_set. Qed.

(** X10: a tools/call that names supabase_modify_schema is always answered,
    whatever its arguments are, missing ones included: with a result
    envelope, or with an error envelope that carries the request's id, the
    code -32603 and a message that begins with "Tool execution failed: ". *)
Theorem modify_schema_call_always_answered
    (this : SupabaseTools) (world : World) (querySchema : value -> promise)
    (server : MCPServer) (message : value) :
  member message "method" = Return (VStr "tools/call") ->
  Get (Get message "params") "name" = VStr "supabase_modify_schema" ->
  exists response,
    handleMessage message (registerTools this world querySchema server)
    = (registerTools this world querySchema server, Fulfilled response)
    /\ ((exists payload,
           response = VObj [("jsonrpc", VStr "2.0"); ("id", Get message "id");
                            ("result", payload)])
        \/ (exists text,
              response =
                VObj [("jsonrpc", VStr "2.0");
                      ("id", Get message "id");
                      ("error",
                       VObj [("code", VNum (-32603));
                             ("message",
                              VStr ("Tool execution failed: " ++ text))])])).
Proof.
  intros Hmethod Hname.
  assert (Hparams : nullish (Get message "params") = None).
  { destruct (Get message "params"); try reflexivity; discriminate Hname. }
  rewrite (handleMessage_tools_call _ _ Hmethod).
  rewrite (handleToolCall_coercible _ _ _ Hparams), Hname.
  unfold Map_get. rewrite registerTools_modify_schema. run.
  destruct (modifySchema world (Get (Get message "params") "arguments"))
    as [v|e] eqn:Hrun; simpl.
  - eexists. split; [reflexivity|]. left. eexists. reflexivity.
  - destruct (modifySchema_rejects_with_message _ _ _ Hrun) as (kind & text & ->).
    simpl. eexists. split; [reflexivity|]. right. exists text. reflexivity.
Qed.

Lemma modify_schema_call_always_answered_witness :
  exists response,
    handleMessage
      (request (VNum 8) "tools/call"
         (VObj [("name", VStr "supabase_modify_schema")]))
      (registerTools example_tools one_row (fun _ => Fulfilled VNull) new_MCPServer)
    = (registerTools example_tools one_row (fun _ => Fulfilled VNull) new_MCPServer,
       Fulfilled response)
    /\ ((exists payload,
           response = VObj [("jsonrpc", VStr "2.0");
                            ("id",
                             Get (request (VNum 8) "tools/call"
                                    (VObj [("name", VStr "supabase_modify_schema")]))
                               "id");
                            ("result", payload)])
        \/ (exists text,
              response =
                VObj [("jsonrpc", VStr "2.0");
                      ("id",
                       Get (request (VNum 8) "tools/call"
                              (VObj [("name", VStr "supabase_modify_schema")]))
                         "id");
                      ("error",
                       VObj [("code", VNum (-32603));
                             ("message",
                              VStr ("Tool execution failed: " ++ text))])])).
Proof.
  apply (modify_schema_call_always_answered example_tools one_row
           (fun _ => Fulfilled VNull) new_MCPServer
           (request (VNum 8) "tools/call"
              (VObj [("name", VStr "supabase_modify_schema")])));
    reflexivity.
Defined.

Lemma new_SupabaseTools_configured (u k : string) :
  u <> EmptyString -> k <> EmptyString ->
  new_SupabaseTools (Some u) (Some k) = Return (mkSupabaseTools u k).
Proof.
  intros Hu Hk. unfold new_SupabaseTools.
  apply String.eqb_neq in Hu, Hk. now rewrite Hu, Hk.
Qed.

(** X11: with both credentials configured, the server starts with exactly
    three tools, and tools/list reports them in the order supabase_query,
    supabase_schema, supabase_modify_schema, each with the description and
    the input schema it was registered with. *)
Theorem configured_server_lists_three_tools
    (u k : string) (world : World) (querySchema : value -> promise) (message : value) :
  u <> EmptyString -> k <> EmptyString ->
  member message "method" = Return (VStr "tools/list") ->
  handleMessage message (mcpServer (Some u) (Some k) world querySchema)
  = (mcpServer (Some u) (Some k) world querySchema,
     Fulfilled
       (VObj [("jsonrpc", VStr "2.0");
              ("id", Get message "id");
              ("result",
               VObj [("tools",
                      VArr [listed "supabase_query"
                              (VStr "Execute CRUD operations on Supabase")
                              supabase_query_schema;
                            listed "supabase_schema"
                              (VStr "Query database schema information")
                              supabase_schema_schema;
                            listed "supabase_modify_schema"
                              (VStr "Modify database structure (REAL modifications)")
                              supabase_modify_schema_schema])])])).
Proof.
  intros Hu Hk Hmethod. unfold mcpServer.
  rewrite (new_SupabaseTools_configured _ _ Hu Hk).
  dispatch Hmethod. reflexivity.
Qed.

Lemma configured_server_lists_three_tools_witness :
  exists response,
    handleMessage (bare_request (VNum 1) "tools/list")
      (mcpServer (Some "https://db.example.co") (Some "service-key")
         one_row (fun _ => Fulfilled VNull))
    = (mcpServer (Some "https://db.example.co") (Some "service-key")
         one_row (fun _ => Fulfilled VNull),
       Fulfilled response).
Proof.
  eexists.
  apply (configured_server_lists_three_tools
           "https://db.example.co" "service-key" one_row
           (fun _ => Fulfilled VNull) (bare_request (VNum 1) "tools/list")).
  - discriminate.
  - discriminate.
  - reflexivity.
Defined.

(** X12: when a credential is missing or empty, the server starts all the
    same, with no tool at all: tools/list reports an empty list, and a
    tools/call whose params can be destructured runs no tool, whichever it
    names.  It is answered with an error envelope that carries the request's
    id, the code -32602 and the message "Tool not found: " followed by the
    name as printed; only when the name cannot be printed is the promise
    rejected instead, with a TypeError. *)
Theorem unconfigured_server_has_no_tools
    (u k : option string) (world : World) (querySchema : value -> promise) :
  u = None \/ u = Some EmptyString \/ k = None \/ k = Some EmptyString ->
  mcpServer u k world querySchema = new_MCPServer
  /\ (forall id,
         handleToolsList id (mcpServer u k world querySchema)
         = (new_MCPServer,
            Return (VObj [("jsonrpc", VStr "2.0"); ("id", id);
                          ("result", VObj [("tools", VArr [])])])))
  /\ (forall message,
         member message "method" = Return (VStr "tools/call") ->
         nullish (Get message "params") = None ->
         (exists shown,
            ToString (Get (Get message "params") "name") = Return shown
            /\ handleMessage message (mcpServer u k world querySchema)
               = (new_MCPServer,
                  Fulfilled
                    (VObj [("jsonrpc", VStr "2.0");
                           ("id", Get message "id");
                           ("error",
                            VObj [("code", VNum (-32602));
                                  ("message",
                                   VStr ("Tool not found: " ++ shown))])])))
         \/ (exists text,
               ToString (Get (Get message "params") "name") = Throw (TypeError text)
               /\ handleMessage message (mcpServer u k world querySchema)
                  = (new_MCPServer, Rejected (TypeError text)))).
Proof.
  intros Hmissing.
  assert (Hnew : mcpServer u k world querySchema = new_MCPServer).
  { unfold mcpServer, new_SupabaseTools.
    destruct Hmissing as [-> | [-> | [-> | ->]]]; try reflexivity.
    - now destruct k.
    - now destruct u.
    - destruct u as [u|]; [|reflexivity]. now rewrite orb_true_r. }
  rewrite Hnew. split; [reflexivity|]. split; [reflexivity|].
  intros message Hmethod Hparams.
  rewrite (handleMessage_tools_call _ _ Hmethod).
  rewrite (handleToolCall_coercible _ _ _ Hparams).
  assert (Hnone : Map_get (tools new_MCPServer) (Get (Get message "params") "name")
                  = None).
  { now destruct (Get (Get message "params") "name"). }
  rewrite Hnone. run.
  destruct (ToString (Get (Get message "params") "name")) as [shown|e] eqn:Hshown;
    simpl.
  - left. exists shown. split; reflexivity.
  - right. rewrite (ToString_Throw _ _ Hshown). eexists. split; reflexivity.
Qed.

Lemma unconfigured_server_has_no_tools_witness :
  (exists shown,
     ToString (Get (Get (request (VNum 1) "tools/call"
                           (VObj [("name", VStr "supabase_query")])) "params")
                 "name") = Return shown
     /\ handleMessage
          (request (VNum 1) "tools/call" (VObj [("name", VStr "supabase_query")]))
          (mcpServer (Some "https://db.example.co") None one_row
             (fun _ => Fulfilled VNull))
        = (new_MCPServer,
           Fulfilled
             (VObj [("jsonrpc", VStr "2.0");
                    ("id",
                     Get (request (VNum 1) "tools/call"
                            (VObj [("name", VStr "supabase_query")])) "id");
                    ("error",
                     VObj [("code", VNum (-32602));
                           ("message", VStr ("Tool not found: " ++ shown))])])))
  \/ (exists text,
        ToString (Get (Get (request (VNum 1) "tools/call"
                              (VObj [("name", VStr "supabase_query")])) "params")
                    "name") = Throw (TypeError text)
        /\ handleMessage
             (request (VNum 1) "tools/call" (VObj [("name", VStr "supabase_query")]))
             (mcpServer (Some "https://db.example.co") None one_row
                (fun _ => Fulfilled VNull))
           = (new_MCPServer, Rejected (TypeError text))).
Proof.
  apply (proj2 (proj2 (unconfigured_server_has_no_tools
                         (Some "https://db.example.co") None one_row
                         (fun _ => Fulfilled VNull)
                         (or_intror (or_intror (or_introl eq_refl)))))
           (request (VNum 1) "tools/call" (VObj [("name", VStr "supabase_query")])));
    reflexivity.
Defined.

(** ** When the dispatcher rejects *)

Lemma error_message_Throw (error e : exn) :
  error_message error = Throw e -> exists text, e = TypeError text.
Proof.
  destruct error as [kind text|v]; simpl; [discriminate|].
  unfold member. destruct (nullish v); [|discriminate].
  intros [= <-]. eexists. reflexivity.
Qed.

Lemma handleToolCall_rejected (this this' : MCPServer) (params id : value) (e : exn) :
  handleToolCall params id this = (this', Rejected e) ->
  this' = this /\ exists text, e = TypeError text.
Proof.
  destruct (nullish params) as [what|] eqn:Hc.
  - unfold handleToolCall, destructure. rewrite Hc. run.
    intros [= <- <-]. split; [reflexivity | eexists; reflexivity].
  - rewrite (handleToolCall_coercible _ _ _ Hc).
    destruct (Map_get (tools this) (Get params "name")) as [tool|]; run.
    + destruct (handler tool (Get params "arguments")) as [v|thrown]; simpl;
        [discriminate|].
      destruct (error_message thrown) as [m|e'] eqn:Hm; simpl.
      * destruct (ToString m) as [shown|e'] eqn:Hshown; simpl; [discriminate|].
        intros [= <- <-]. split; [reflexivity|].
        rewrite (ToString_Throw _ _ Hshown). eexists. reflexivity.
      * intros [= <- <-]. split; [reflexivity|].
        exact (error_message_Throw _ _ Hm).
    + destruct (ToString (Get params "name")) as [shown|e'] eqn:Hshown; simpl;
        [discriminate|].
      intros [= <- <-]. split; [reflexivity|].
      rewrite (ToString_Throw _ _ Hshown). eexists. reflexivity.
Qed.

(** When [handleMessage] rejects, it is with a TypeError and with the engine
    unchanged, and only for an envelope that is null or undefined or for a
    tools/call request. *)
Lemma handleMessage_rejected
    (this this' : MCPServer) (message : value) (e : exn) :
  handleMessage message this = (this', Rejected e) ->
  this' = this
  /\ (exists text, e = TypeError text)
  /\ (nullish message <> None \/ Get message "method" = VStr "tools/call").
Proof.
  intros H. destruct (nullish message) as [what|] eqn:Hc.
  - revert H. unfold handleMessage, destructure, member. rewrite Hc. run.
    intros [= <- <-]. repeat split; [eexists; reflexivity | left; discriminate].
  - destruct (strict_equal (Get message "method") "tools/call") eqn:Hcall.
    + pose proof (member_method _ _ Hc Hcall) as Hmethod.
      rewrite (handleMessage_tools_call _ _ Hmethod) in H.
      destruct (handleToolCall_rejected _ _ _ _ _ H) as [-> Htext].
      repeat split; [exact Htext | right; now apply strict_equal_true].
    + destruct (handleMessage_fulfils_outside_tools_call this message Hc Hcall)
        as (this'' & response & Hok).
      rewrite Hok in H. discriminate.
Qed.

(** The dispatcher fulfils with [null] for the notification only. *)
Lemma handleMessage_null (this this' : MCPServer) (message : value) :
  handleMessage message this = (this', Fulfilled VNull) ->
  Get message "method" = VStr "notifications/initialized".
Proof.
  destruct (nullish message) as [what|] eqn:Hc.
  { unfold handleMessage, destructure, member. rewrite Hc. run. discriminate. }
  destruct (strict_equal (Get message "method") "tools/call") eqn:Hcall.
  { pose proof (member_method _ _ Hc Hcall) as Hmethod.
    rewrite (handleMessage_tools_call _ _ Hmethod). intros H.
    apply handleToolCall_fulfilled in H.
    destruct H as [_ [[payload H]|[[text H]|[shown [H _]]]]]; discriminate H. }
  unfold handleMessage.
  rewrite (destructure_coercible _ "message" "method" Hc),
    (member_coercible _ "id" Hc).
  run. rewrite Hcall.
  destruct (strict_equal (Get message "method") "initialize").
  { unfold handleInitialize. run.
    destruct (member (Get message "params") "capabilities") as [c|e]; simpl;
      [discriminate|].
    destruct (error_message e); simpl; discriminate. }
  destruct (strict_equal (Get message "method") "tools/list").
  { unfold handleToolsList. run. discriminate. }
  destruct (strict_equal (Get message "method") "notifications/initialized") eqn:Hn.
  { intros _. now apply strict_equal_true. }
  destruct (ToString (Get message "method")) as [shown|e]; simpl; [discriminate|].
  destruct (error_message e); simpl; discriminate.
Qed.

(** ** The HTTP endpoint *)

(** X13: for a body that is not null or undefined, once the promise of the
    dispatcher has settled, POST /mcp/http replies, and as the settlement
    says: status 200 with the envelope when it is fulfilled with one; status
    204 without content when it is fulfilled with [null]; status 500 with an
    error -32603 envelope when it is rejected, whose id is the id of the
    body, or [null] when that id is missing or falsy. *)
Theorem post_mcp_http_replies (this this' : MCPServer) (body : value) :
  nullish body = None ->
  (forall response,
      handleMessage body this = (this', Fulfilled response) ->
      response <> VNull ->
      post_mcp_http body this = (this', Return (mkReply 200 (Some response))))
  /\ (handleMessage body this = (this', Fulfilled VNull) ->
      post_mcp_http body this = (this', Return (mkReply 204 None)))
  /\ (forall e,
         handleMessage body this = (this', Rejected e) ->
         exists text,
           e = TypeError text
           /\ post_mcp_http body this =
                (this',
                 Return
                   (mkReply 500
                      (Some (VObj [("jsonrpc", VStr "2.0");
                                   ("id", logical_or (Get body "id") VNull);
                                   ("error",
                                    VObj [("code", VNum (-32603));
                                          ("message", VStr text)])]))))).
Proof.
  intros Hc.
  assert (Hpost : forall settled,
             handleMessage body this = (this', settled) ->
             post_mcp_http body this =
               match settled with
               | Fulfilled response =>
                   (this',
                    Return (if ToBoolean response then mkReply 200 (Some response)
                            else mkReply 204 None))
               | Rejected e =>
                   match error_message e with
                   | Return text =>
                       (this',
                        Return
                          (mkReply 500
                             (Some (VObj [("jsonrpc", VStr "2.0");
                                          ("id", logical_or (Get body "id") VNull);
                                          ("error",
                                           VObj [("code", VNum (-32603));
                                                 ("message", text)])]))))
                   | Throw e' => (this', Throw e')
                   end
               end).
  { intros settled Hrun. unfold post_mcp_http, try_catch, bind, call_async.
    rewrite !(member_coercible _ _ Hc). unfold lift. rewrite Hrun.
    destruct settled as [response|e]; simpl.
    - now destruct (ToBoolean response).
    - now destruct (error_message e). }
  split; [|split].
  - intros response Hrun Hsome. rewrite (Hpost _ Hrun).
    pose proof (handleMessage_fulfilled _ _ _ _ Hrun) as Hcases.
    destruct Hcases as [->|[[payload ->]|[[text ->]|[[text ->]|[shown [-> _]]]]]];
      [contradiction | reflexivity ..].
  - intros Hrun. rewrite (Hpost _ Hrun). reflexivity.
  - intros e Hrun. rewrite (Hpost _ Hrun).
    destruct (handleMessage_rejected _ _ _ _ Hrun) as (_ & [text ->] & _).
    exists text. split; reflexivity.
Qed.

Lemma post_mcp_http_replies_witness :
  exists text,
    TypeError "Cannot destructure property 'name' of 'params' as it is undefined."
    = TypeError text
    /\ post_mcp_http (bare_request (VNum 0) "tools/call") example_server =
         (example_server,
          Return
            (mkReply 500
               (Some (VObj [("jsonrpc", VStr "2.0");
                            ("id",
                             logical_or
                               (Get (bare_request (VNum 0) "tools/call") "id") VNull);
                            ("error",
                             VObj [("code", VNum (-32603));
                                   ("message", VStr text)])])))).
Proof.
  apply (proj2 (proj2 (post_mcp_http_replies example_server example_server
                         (bare_request (VNum 0) "tools/call") eq_refl))
           (TypeError
              "Cannot destructure property 'name' of 'params' as it is undefined.")).
  reflexivity.
Defined.

(** X14: over HTTP a tools/call request without params, which the
    dispatcher lets escape, is answered by the endpoint itself: status 500
    and an error -32603 envelope.  Its id is the id of the request only if
    that is truthy: a request with id 0 is answered with id null. *)
Theorem post_mcp_http_tools_call_without_params
    (this : MCPServer) (body : value) (what : string) :
  member body "method" = Return (VStr "tools/call") ->
  nullish (Get body "params") = Some what ->
  post_mcp_http body this =
    (this,
     Return
       (mkReply 500
          (Some (VObj [("jsonrpc", VStr "2.0");
                       ("id", if ToBoolean (Get body "id") then Get body "id" else VNull);
                       ("error",
                        VObj [("code", VNum (-32603));
                              ("message",
                               VStr ("Cannot destructure property 'name' of 'params' as it is "
                                       ++ what ++ "."))])])))).
Proof.
  intros Hmethod Hparams.
  destruct (member_Return _ _ _ Hmethod) as [Hc _].
  unfold post_mcp_http, try_catch, bind, call_async.
  rewrite !(member_coercible _ _ Hc). unfold lift.
  rewrite (tools_call_nullish_params_rejects this body what Hmethod Hparams).
  reflexivity.
Qed.

Lemma post_mcp_http_tools_call_without_params_witness :
  post_mcp_http (bare_request (VNum 0) "tools/call") example_server =
    (example_server,
     Return
       (mkReply 500
          (Some (VObj [("jsonrpc", VStr "2.0");
                       ("id", VNull);
                       ("error",
                        VObj [("code", VNum (-32603));
                              ("message",
                               VStr "Cannot destructure property 'name' of 'params' as it is undefined.")])])))).
Proof.
  apply (post_mcp_http_tools_call_without_params example_server
           (bare_request (VNum 0) "tools/call") "undefined");
    reflexivity.
Defined.

(** ** The WebSocket endpoint *)

(** X15: once the promise of the dispatcher has settled for a parsed
    message, the WebSocket endpoint has sent at most one frame back, a text;
    it has sent none exactly when the dispatcher fulfilled with [null],
    which it does for the notifications/initialized message only. *)
Theorem on_message_sends_at_most_one_frame
    (this this' : MCPServer) (message : value) (settled : promise) :
  handleMessage message this = (this', settled) ->
  exists frames,
    on_message (Return message) this = (this', Return frames)
    /\ length frames <= 1
    /\ Forall (fun frame => exists text, frame = VStr text) frames
    /\ (frames = [] <-> settled = Fulfilled VNull)
    /\ (frames = [] -> Get message "method" = VStr "notifications/initialized").
Proof.
  intros Hrun.
  unfold on_message, try_catch, bind, call_async, lift, ret. simpl.
  destruct (member message "method") as [m|e] eqn:Hm; simpl.
  2:{ unfold member in Hm. destruct (nullish message) as [what|] eqn:Hc;
        [|discriminate].
      revert Hrun. unfold handleMessage, destructure, member. rewrite Hc. run.
      intros [= <- <-].
      eexists. split; [reflexivity|]. simpl.
      repeat split; try discriminate; [lia|].
      constructor; [eexists; reflexivity | constructor]. }
  rewrite Hrun. destruct settled as [response|e]; simpl.
  2:{ eexists. split; [reflexivity|]. simpl.
      repeat split; try discriminate; [lia|].
      constructor; [eexists; reflexivity | constructor]. }
  pose proof (handleMessage_fulfilled _ _ _ _ Hrun) as Hcases.
  destruct Hcases as [->|[[payload ->]|[[text ->]|[[text ->]|[shown [-> _]]]]]];
    simpl; eexists; (split; [reflexivity|]); simpl.
  - repeat split; [lia | constructor |].
    intros _. exact (handleMessage_null _ _ _ Hrun).
  - repeat split; try discriminate; [lia|].
    constructor; [|constructor]. unfold JSON_stringify_compact.
    simpl. eexists. reflexivity.
  - repeat split; try discriminate; [lia|].
    constructor; [|constructor]. unfold JSON_stringify_compact.
    simpl. eexists. reflexivity.
  - repeat split; try discriminate; [lia|].
    constructor; [|constructor]. unfold JSON_stringify_compact.
    simpl. eexists. reflexivity.
  - repeat split; try discriminate; [lia|].
    constructor; [|constructor]. unfold JSON_stringify_compact.
    simpl. eexists. reflexivity.
Qed.

Lemma on_message_sends_at_most_one_frame_witness :
  exists frames,
    on_message
      (Return (VObj [("jsonrpc", VStr "2.0");
                     ("method", VStr "notifications/initialized")]))
      example_server
    = (fst (handleMessage
              (VObj [("jsonrpc", VStr "2.0");
                     ("method", VStr "notifications/initialized")])
              example_server),
       Return frames)
    /\ length frames <= 1
    /\ Forall (fun frame => exists text, frame = VStr text) frames
    /\ (frames = [] <-> Fulfilled VNull = Fulfilled VNull)
    /\ (frames = [] ->
        Get (VObj [("jsonrpc", VStr "2.0");
                   ("method", VStr "notifications/initialized")]) "method"
        = VStr "notifications/initialized").
Proof.
  apply (on_message_sends_at_most_one_frame example_server
           (fst (handleMessage
                   (VObj [("jsonrpc", VStr "2.0");
                          ("method", VStr "notifications/initialized")])
                   example_server))
           (VObj [("jsonrpc", VStr "2.0");
                  ("method", VStr "notifications/initialized")])
           (Fulfilled VNull)).
  reflexivity.
Defined.

(** X16: over WebSocket every failure of the dispatcher is reported as a
    parse error: when [handleMessage] rejects, the client is sent the frame
    with code -32700, message "Parse error" and id null, the very frame it
    is sent for a text that is not JSON. *)
Theorem on_message_reports_rejection_as_parse_error
    (this this' : MCPServer) (message : value) (e syntax_error : exn) :
  handleMessage message this = (this', Rejected e) ->
  on_message (Return message) this = (this', Return [parse_error_frame])
  /\ on_message (Throw syntax_error) this = (this, Return [parse_error_frame]).
Proof.
  intros Hrun. split; [|reflexivity].
  destruct (handleMessage_rejected _ _ _ _ Hrun) as (-> & _ & _).
  unfold on_message, try_catch, bind, call_async, lift, ret. simpl.
  destruct (member message "method") as [m|e']; simpl; [|reflexivity].
  rewrite Hrun. reflexivity.
Qed.

Lemma on_message_reports_rejection_as_parse_error_witness :
  on_message (Return (bare_request (VNum 3) "tools/call")) example_server
  = (example_server, Return [parse_error_frame])
  /\ on_message (Throw (ErrorObject "SyntaxError" "Unexpected end of JSON input"))
       example_server
     = (example_server, Return [parse_error_frame]).
Proof.
  apply (on_message_reports_rejection_as_parse_error example_server example_server
           (bare_request (VNum 3) "tools/call")
           (TypeError
              "Cannot destructure property 'name' of 'params' as it is undefined.")
           (ErrorObject "SyntaxError" "Unexpected end of JSON input")).
  reflexivity.
Defined.

(** X17: over WebSocket the error for a request that carries no id is sent
    without an id member, not with id null: the frame for an unknown method
    is the text of the envelope with the version tag and the error only. *)
Theorem on_message_error_frame_without_id
    (this : MCPServer) (message : value) (m : string) :
  member message "method" = Return (VStr m) ->
  ~ In m ["initialize"; "tools/list"; "tools/call"; "notifications/initialized"] ->
  Get message "id" = VUndefined ->
  on_message (Return message) this =
    (this,
     Return [JSON_stringify_compact
               (VObj [("jsonrpc", VStr "2.0");
                      ("error",
                       VObj [("code", VNum (-32601));
                             ("message", VStr ("Method not found: " ++ m))])])]).
Proof.
  intros Hmethod Hother Hid.
  assert (Hrun : handleMessage message this =
                   (this,
                    Fulfilled (createErrorResponse VUndefined (-32601)
                                 (VStr ("Method not found: " ++ m))))).
  { rewrite <- Hid. dispatch Hmethod.
    rewrite !strict_equal_other by (intros ->; apply Hother; simpl; tauto).
    reflexivity. }
  unfold on_message, try_catch, bind, call_async, lift, ret. simpl.
  rewrite Hmethod. simpl. rewrite Hrun. reflexivity.
Qed.

Lemma on_message_error_frame_without_id_witness :
  on_message (Return (VObj [("jsonrpc", VStr "2.0"); ("method", VStr "ping")]))
    example_server =
    (example_server,
     Return [JSON_stringify_compact
               (VObj [("jsonrpc", VStr "2.0");
                      ("error",
                       VObj [("code", VNum (-32601));
                             ("message", VStr "Method not found: ping")])])]).
Proof.
  apply (on_message_error_frame_without_id example_server
           (VObj [("jsonrpc", VStr "2.0"); ("method", VStr "ping")]) "ping").
  - reflexivity.
  - simpl. intros [H|[H|[H|[H|[]]]]]; discriminate H.
  - reflexivity.
Defined.

(** ** The dispatcher as a whole *)

(** X18: the dispatcher lets a failure escape for two kinds of input only:
    an envelope that is null or undefined, and a tools/call request.  Every
    other envelope is answered, whatever it holds; and when the promise is
    rejected, it is with a TypeError and the engine is as it was. *)
Theorem dispatcher_escapes_only_from_tools_call
    (this : MCPServer) (message : value) :
  (nullish message = None ->
   Get message "method" <> VStr "tools/call" ->
   exists this' response,
     handleMessage message this = (this', Fulfilled response))
  /\ (forall this' e,
         handleMessage message this = (this', Rejected e) ->
         this' = this
         /\ (exists text, e = TypeError text)
         /\ (nullish message <> None \/ Get message "method" = VStr "tools/call")).
Proof.
  split.
  - intros Hc Hother.
    destruct (handleMessage message this) as [this' [response|e]] eqn:Hrun.
    + exists this', response. reflexivity.
    + destruct (handleMessage_rejected _ _ _ _ Hrun) as (_ & _ & [Hnull|Hcall]);
        contradiction.
  - intros this' e Hrun. exact (handleMessage_rejected _ _ _ _ Hrun).
Qed.

Lemma dispatcher_escapes_only_from_tools_call_witness :
  exists this' response,
    handleMessage (VObj [("id", VNum 1); ("method", VArr [VObj [("toString", VNull)]])])
      example_server
    = (this', Fulfilled response).
Proof.
  apply (proj1 (dispatcher_escapes_only_from_tools_call example_server
                  (VObj [("id", VNum 1);
                         ("method", VArr [VObj [("toString", VNull)]])]))).
  - reflexivity.
  - discriminate.
Defined.

(** X19: whatever the message, the dispatcher leaves the registry, the
    resources and the prompts untouched; the stored capabilities change for
    an initialize request only, and the signals emitted grow, by the one
    "initialized", for the notification only. *)
Theorem handleMessage_keeps_registry
    (this this' : MCPServer) (message : value) (settled : promise) :
  handleMessage message this = (this', settled) ->
  tools this' = tools this
  /\ resources this' = resources this
  /\ prompts this' = prompts this
  /\ (clientCapabilities this' = clientCapabilities this
      \/ Get message "method" = VStr "initialize")
  /\ (emitted this' = emitted this
      \/ Get message "method" = VStr "notifications/initialized"
         /\ emitted this' = (emitted this ++ ["initialized"])%list).
Proof.
  destruct (nullish message) as [what|] eqn:Hc.
  { unfold handleMessage, destructure, member. rewrite Hc. run.
    intros [= <- _]. repeat split; left; reflexivity. }
  destruct (strict_equal (Get message "method") "tools/call") eqn:Hcall.
  { pose proof (member_method _ _ Hc Hcall) as Hmethod.
    rewrite (handleMessage_tools_call _ _ Hmethod). intros H.
    assert (this' = this) as ->.
    { destruct settled as [response|e].
      - revert H. destruct (nullish (Get message "params")) as [w|] eqn:Hp.
        + unfold handleToolCall, destructure. rewrite Hp. run. discriminate.
        + rewrite (handleToolCall_coercible _ _ _ Hp).
          destruct (Map_get (tools this) (Get (Get message "params") "name"))
            as [tool|]; run.
          * destruct (handler tool _) as [v|thrown]; simpl; [now intros [= <- _]|].
            destruct (error_message thrown) as [m|e']; simpl; [|discriminate].
            destruct (ToString m); simpl; [now intros [= <- _] | discriminate].
          * destruct (ToString _); simpl; [now intros [= <- _] | discriminate].
      - now destruct (handleToolCall_rejected _ _ _ _ _ H). }
    repeat split; left; reflexivity. }
  unfold handleMessage.
  rewrite (destructure_coercible _ "message" "method" Hc),
    (member_coercible _ "id" Hc).
  run. rewrite Hcall.
  destruct (strict_equal (Get message "method") "initialize") eqn:Hinit.
  { apply strict_equal_true in Hinit. unfold handleInitialize. run.
    destruct (member (Get message "params") "capabilities") as [c|e]; simpl.
    - intros [= <- _]. simpl. repeat split; [right; assumption | left; reflexivity].
    - destruct (error_message e); simpl; intros [= <- _];
        repeat split; left; reflexivity. }
  destruct (strict_equal (Get message "method") "tools/list").
  { unfold handleToolsList. run. intros [= <- _]. repeat split; left; reflexivity. }
  destruct (strict_equal (Get message "method") "notifications/initialized") eqn:Hn.
  { apply strict_equal_true in Hn. unfold handleInitialized. run.
    intros [= <- _]. simpl. repeat split; [left; reflexivity|].
    right. split; [assumption | reflexivity]. }
  destruct (ToString (Get message "method")) as [shown|e]; simpl.
  - intros [= <- _]. repeat split; left; reflexivity.
  - destruct (error_message e); simpl; intros [= <- _];
      repeat split; left; reflexivity.
Qed.

Lemma handleMessage_keeps_registry_witness :
  tools (fst (handleMessage
                (request (VNum 1) "initialize"
                   (VObj [("capabilities", VObj [("roots", VObj [])])]))
                example_server))
  = tools example_server.
Proof.
  apply (handleMessage_keeps_registry example_server _
           (request (VNum 1) "initialize"
              (VObj [("capabilities", VObj [("roots", VObj [])])]))
           (snd (handleMessage
                   (request (VNum 1) "initialize"
                      (VObj [("capabilities", VObj [("roots", VObj [])])]))
                   example_server))).
  reflexivity.
Defined.

(** X20: a tool can be listed and called as soon as it is registered, under
    the name it was registered with, and the last registration wins: after
    [addTool n ...] the answer to tools/list holds the entry of [n] with the
    description and schema just given, and a tools/call that names [n] runs
    the handler just given, whatever was registered under [n] before, and
    answers with the text of its result. *)
Theorem registered_tool_is_called
    (this : MCPServer) (n : string) (d i : value) (h : value -> promise)
    (listing message v : value) :
  member listing "method" = Return (VStr "tools/list") ->
  member message "method" = Return (VStr "tools/call") ->
  Get (Get message "params") "name" = VStr n ->
  h (Get (Get message "params") "arguments") = Fulfilled v ->
  (exists entries,
      handleMessage listing (addTool n d i h this) =
        (addTool n d i h this,
         Fulfilled (VObj [("jsonrpc", VStr "2.0");
                          ("id", Get listing "id");
                          ("result", VObj [("tools", VArr entries)])]))
      /\ In (listed n d i) entries)
  /\ handleMessage message (addTool n d i h this) =
       (addTool n d i h this,
        Fulfilled
          (VObj [("jsonrpc", VStr "2.0");
                 ("id", Get message "id");
                 ("result",
                  VObj [("content",
                         VArr [VObj [("type", VStr "text");
                                     ("text", JSON_stringify v)]])])])).
Proof.
  intros Hlisting Hmethod Hname Hreturns.
  assert (Hfound : Map_get_key (tools (addTool n d i h this)) n
                   = Some (mkTool n d i h)).
  { simpl. now rewrite Map_get_key_set, String.eqb_refl. }
  split.
  - eexists. split.
    + dispatch Hlisting. reflexivity.
    + destruct (Map_get_key (tools this) n) as [old|] eqn:Hold.
      * destruct (Map_set_present (tools this) n (mkTool n d i h) old Hold)
          as (front & back & _ & Hset).
        simpl tools. rewrite Hset. unfold Map_values. rewrite !map_app.
        apply in_or_app. right. left. reflexivity.
      * clear Hfound. simpl tools. revert Hold.
        induction (tools this) as [|[k t] m IH]; simpl.
        -- intros _. left. reflexivity.
        -- destruct (String.eqb n k); [discriminate|].
           intros Hold. simpl. right. exact (IH Hold).
  - assert (Hparams : nullish (Get message "params") = None).
    { destruct (Get message "params"); try reflexivity; discriminate Hname. }
    rewrite (handleMessage_tools_call _ _ Hmethod).
    rewrite (handleToolCall_coercible _ _ _ Hparams), Hname.
    unfold Map_get. rewrite Hfound. run. rewrite Hreturns. reflexivity.
Qed.

Lemma registered_tool_is_called_witness :
  (exists entries,
      handleMessage (bare_request (VNum 5) "tools/list")
        (addTool "supabase_schema" VNull VNull count_rows example_server) =
        (addTool "supabase_schema" VNull VNull count_rows example_server,
         Fulfilled (VObj [("jsonrpc", VStr "2.0");
                          ("id", Get (bare_request (VNum 5) "tools/list") "id");
                          ("result", VObj [("tools", VArr entries)])]))
      /\ In (listed "supabase_schema" VNull VNull) entries)
  /\ handleMessage
       (request (VNum 6) "tools/call" (VObj [("name", VStr "supabase_schema")]))
       (addTool "supabase_schema" VNull VNull count_rows example_server)
     = (addTool "supabase_schema" VNull VNull count_rows example_server,
        Fulfilled
          (VObj [("jsonrpc", VStr "2.0");
                 ("id",
                  Get (request (VNum 6) "tools/call"
                         (VObj [("name", VStr "supabase_schema")])) "id");
                 ("result",
                  VObj [("content",
                         VArr [VObj [("type", VStr "text");
                                     ("text",
                                      JSON_stringify
                                        (VObj [("data", VArr [VNum 1; VNum 2]);
                                               ("count", VNum 2)]))]])])])).
Proof.
  apply (registered_tool_is_called example_server "supabase_schema"
           VNull VNull count_rows
           (bare_request (VNum 5) "tools/list")
           (request (VNum 6) "tools/call"
              (VObj [("name", VStr "supabase_schema")]))
           (VObj [("data", VArr [VNum 1; VNum 2]); ("count", VNum 2)]));
    reflexivity.
Defined.

(** X21: every envelope the dispatcher returns carries the version tag
    "2.0" and the id of the request, and holds either a result and no error,
    or an error and no result; an error has a code and a message and
    nothing else, and its code is -32601, -32602 or -32603, never the parse
    error -32700. *)
Theorem returned_envelope_is_framed
    (this this' : MCPServer) (message response : value) :
  handleMessage message this = (this', Fulfilled response) ->
  response = VNull
  \/ (Get response "jsonrpc" = VStr "2.0"
      /\ Get response "id" = Get message "id"
      /\ ((own_keys response = ["jsonrpc"; "id"; "result"]
           /\ Get response "error" = VUndefined)
          \/ (own_keys response = ["jsonrpc"; "id"; "error"]
              /\ Get response "result" = VUndefined
              /\ own_keys (Get response "error") = ["code"; "message"]
              /\ In (error_code response)
                   [VNum (-32601); VNum (-32602); VNum (-32603)]))).
Proof.
  intros H. apply handleMessage_fulfilled in H.
  destruct H as [->|[[payload ->]|[[text ->]|[[text ->]|[shown [-> _]]]]]].
  - left. reflexivity.
  - right. repeat split. left. split; reflexivity.
  - right. repeat split. right. repeat split. simpl. tauto.
  - right. repeat split. right. repeat split. simpl. tauto.
  - right. repeat split. right. repeat split. simpl. tauto.
Qed.

Lemma returned_envelope_is_framed_witness :
  createErrorResponse (VStr "a") (-32601) (VStr "Method not found: ping") = VNull
  \/ (Get (createErrorResponse (VStr "a") (-32601) (VStr "Method not found: ping"))
        "jsonrpc" = VStr "2.0"
      /\ Get (createErrorResponse (VStr "a") (-32601) (VStr "Method not found: ping"))
           "id" = Get (bare_request (VStr "a") "ping") "id"
      /\ ((own_keys (createErrorResponse (VStr "a") (-32601)
                       (VStr "Method not found: ping"))
           = ["jsonrpc"; "id"; "result"]
           /\ Get (createErrorResponse (VStr "a") (-32601)
                     (VStr "Method not found: ping")) "error" = VUndefined)
          \/ (own_keys (createErrorResponse (VStr "a") (-32601)
                          (VStr "Method not found: ping"))
              = ["jsonrpc"; "id"; "error"]
              /\ Get (createErrorResponse (VStr "a") (-32601)
                        (VStr "Method not found: ping")) "result" = VUndefined
              /\ own_keys (Get (createErrorResponse (VStr "a") (-32601)
                                  (VStr "Method not found: ping")) "error")
                 = ["code"; "message"]
              /\ In (error_code (createErrorResponse (VStr "a") (-32601)
                                   (VStr "Method not found: ping")))
                   [VNum (-32601); VNum (-32602); VNum (-32603)]))).
Proof.
  apply (returned_envelope_is_framed example_server example_server
           (bare_request (VStr "a") "ping")
           (createErrorResponse (VStr "a") (-32601) (VStr "Method not found: ping"))).
  reflexivity.
Defined.

Lemma modifySchema_prepares_only_witness :
  In (Get (VObj [("operation", VStr "drop_table"); ("table", VStr "users")])
        "operation")
    [VStr "create_table"; VStr "add_column"; VStr "drop_column"; VStr "drop_table"].
Proof.
  exact (proj1 (proj2 (modifySchema_prepares_only one_row
                         (VObj [("operation", VStr "drop_table");
                                ("table", VStr "users")]))
                  _ eq_refl)).
Defined.
